(** * La Cuerda scraper: a shallow embedding of [scraping/scraping.py]

    The four functions of the module ([fetch_all_artists],
    [extract_urls_from_page], [extract_lyrics_from_url], [search_spotify])
    are embedded as Rocq functions over
    - Python strings as [string] (code points below 256),
    - the tree BeautifulSoup builds with [html.parser] as an inductive [node],
    - the network as a function from the requests the code builds to the
      answers [requests] gives (a response, or a raised [RequestException]),
    - exceptions as an explicit outcome type, and the [while True] loop of the
      paginator as a fuelled recursion that also records the requests issued.

    Notices written with [print] are not part of any result and are left out. *)

From Stdlib Require Import List ZArith Lia Bool Ascii String QArith Sorted.
Import ListNotations.

Set Warnings "-register-all".

Local Open Scope string_scope.
Local Open Scope Z_scope.
Local Open Scope list_scope.

(** ** Python strings *)

Module Str.

(** [str.isspace] on the code points below 256: TAB..CR, FS..US and SPACE,
    NEL (0x85) and NBSP (0xA0). *)
Definition isspace (c : ascii) : bool :=
  let n := nat_of_ascii c in
  (((9 <=? n) && (n <=? 13)) || ((28 <=? n) && (n <=? 32))
   || (n =? 133) || (n =? 160))%nat.

Fixpoint lstrip (s : string) : string :=
  match s with
  | EmptyString => EmptyString
  | String c s' => if isspace c then lstrip s' else s
  end.

Fixpoint rstrip (s : string) : string :=
  match s with
  | EmptyString => EmptyString
  | String c s' =>
      match rstrip s' with
      | EmptyString => if isspace c then EmptyString else String c EmptyString
      | r => String c r
      end
  end.

(** [s.strip()] *)
Definition strip (s : string) : string := rstrip (lstrip s).

(** [sep.join(l)] *)
Fixpoint join (sep : string) (l : list string) : string :=
  match l with
  | [] => EmptyString
  | x :: rest =>
      match rest with
      | [] => x
      | _ :: _ => (x ++ sep ++ join sep rest)%string
      end
  end.

(** Whitespace-separated words of [s], as [re.findall(r"\S+", s)] gives them
    (bs4 splits a [class] attribute this way). *)
Fixpoint words_from (cur : string) (s : string) : list string :=
  match s with
  | EmptyString => match cur with EmptyString => [] | _ => [cur] end
  | String c s' =>
      if isspace c
      then match cur with
           | EmptyString => words_from EmptyString s'
           | _ => cur :: words_from EmptyString s'
           end
      else words_from (cur ++ String c EmptyString)%string s'
  end.

Definition words (s : string) : list string := words_from EmptyString s.

(** First and last character. *)
Definition first (s : string) : option ascii :=
  match s with
  | EmptyString => None
  | String c _ => Some c
  end.

Fixpoint last (s : string) : option ascii :=
  match s with
  | EmptyString => None
  | String c s' => match last s' with None => Some c | Some d => Some d end
  end.

(** [s.startswith(sub)] *)
Fixpoint startswith (s sub : string) {struct sub} : bool :=
  match sub with
  | EmptyString => true
  | String a sub' =>
      match s with
      | EmptyString => false
      | String b s' => Ascii.eqb a b && startswith s' sub'
      end
  end.

(** Number of positions of [s] at which [sub] occurs. *)
Fixpoint occurrences (sub s : string) : nat :=
  match s with
  | EmptyString => 0%nat
  | String _ s' =>
      ((if startswith s sub then 1 else 0) + occurrences sub s')%nat
  end.

(** No whitespace at either end (the empty string has none). *)
Definition trimmed (s : string) : Prop :=
  (forall c, first s = Some c -> isspace c = false) /\
  (forall c, last s = Some c -> isspace c = false).

End Str.

(** ** The parse tree of bs4 *)

Module Bs4.

(** A page element: a plain [NavigableString], one of the string kinds
    [get_text] leaves out ([Comment], and likewise [Script], [Stylesheet],
    ...), or a [Tag] with its attribute dictionary and contents. *)
Inductive node : Type :=
| NavigableString (s : string)
| Comment (s : string)
| Tag (name : string) (attrs : list (string * string)) (contents : list node).

(** [tag.descendants]: every element below the tag, in document order. *)
Fixpoint descendants (t : node) : list node :=
  match t with
  | Tag _ _ contents =>
      (fix each (l : list node) : list node :=
         match l with
         | [] => []
         | c :: l' => c :: descendants c ++ each l'
         end) contents
  | _ => []
  end.

Fixpoint lookup (k : string) (d : list (string * string)) : option string :=
  match d with
  | [] => None
  | (k', v) :: d' => if String.eqb k k' then Some v else lookup k d'
  end.

(** [tag.get(k)]; a string has no attributes. *)
Definition get (t : node) (k : string) : option string :=
  match t with
  | Tag _ attrs _ => lookup k attrs
  | _ => None
  end.

(** [tag.has_attr(k)] *)
Definition has_attr (t : node) (k : string) : bool :=
  match get t k with Some _ => true | None => false end.

(** The keyword filters the module passes to [find] and [find_all]. *)
Inductive attr_filter : Type :=
| AttrIs (k v : string)     (* id="i_main" *)
| AttrPresent (k : string)  (* href=True *)
| ClassIs (c : string).     (* class_="rLetra" *)

Definition satisfies (t : node) (f : attr_filter) : bool :=
  match f with
  | AttrIs k v =>
      match get t k with Some v' => String.eqb v v' | None => false end
  | AttrPresent k => has_attr t k
  | ClassIs c =>
      match get t "class" with
      | Some v => existsb (String.eqb c) (Str.words v)
      | None => false
      end
  end.

Definition matches (name : string) (fs : list attr_filter) (t : node) : bool :=
  match t with
  | Tag name' _ _ => String.eqb name name' && forallb (satisfies t) fs
  | _ => false
  end.

(** [t.find_all(name, **fs)]: the matching descendants, in document order. *)
Definition find_all (t : node) (name : string) (fs : list attr_filter)
  : list node :=
  filter (matches name fs) (descendants t).

(** [t.find(name, **fs)]: the first match, or [None]. *)
Definition find (t : node) (name : string) (fs : list attr_filter)
  : option node :=
  hd_error (find_all t name fs).

(** [t._all_strings(strip=True)]: the plain strings below [t], stripped, the
    empty ones skipped. *)
Fixpoint all_strings (l : list node) : list string :=
  match l with
  | [] => []
  | NavigableString s :: l' =>
      match Str.strip s with
      | EmptyString => all_strings l'
      | s' => s' :: all_strings l'
      end
  | _ :: l' => all_strings l'
  end.

(** [t.get_text(separator=sep, strip=True)] *)
Definition get_text (t : node) (sep : string) : string :=
  Str.join sep (all_strings (descendants t)).

End Bs4.

(** ** URLs *)

Module Url.

Definition is_alpha (c : ascii) : bool :=
  let n := nat_of_ascii c in
  (((65 <=? n) && (n <=? 90)) || ((97 <=? n) && (n <=? 122)))%nat.

Definition is_digit (c : ascii) : bool :=
  let n := nat_of_ascii c in ((48 <=? n) && (n <=? 57))%nat.

(** Characters of a scheme after its first letter: letters, digits, [+-.] *)
Definition is_scheme_char (c : ascii) : bool :=
  is_alpha c || is_digit c
  || Ascii.eqb c "+" || Ascii.eqb c "-" || Ascii.eqb c ".".

Definition lower (c : ascii) : ascii :=
  let n := nat_of_ascii c in
  if ((65 <=? n) && (n <=? 90))%nat then ascii_of_nat (n + 32) else c.

(** The scheme characters up to the first [":"], lower-cased; [None] when a
    character that cannot be in a scheme, or the end, comes first. *)
Fixpoint scheme_rest (s : string) : option string :=
  match s with
  | EmptyString => None
  | String c s' =>
      if Ascii.eqb c ":" then Some EmptyString
      else if is_scheme_char c
           then option_map (String (lower c)) (scheme_rest s')
           else None
  end.

(** The scheme of [u] (a letter, then scheme characters, then [":"]). *)
Definition scheme_of (u : string) : option string :=
  match u with
  | String c s' =>
      if is_alpha c then option_map (String (lower c)) (scheme_rest s')
      else None
  | EmptyString => None
  end.

(** An absolute URL names its scheme. *)
Definition is_absolute (u : string) : bool :=
  match scheme_of u with Some _ => true | None => false end.

(** The URLs [requests] has a transport for. *)
Definition is_web (u : string) : bool :=
  match scheme_of u with
  | Some sch => String.eqb sch "http" || String.eqb sch "https"
  | None => false
  end.

End Url.

(** ** Values, exceptions and the network *)

Module Py.

(** What [json.loads] builds. *)
Inductive value : Type :=
| VNone
| VBool (b : bool)
| VInt (n : Z)
| VFloat (q : Q)
| VStr (s : string)
| VList (l : list value)
| VDict (d : list (string * value)).

Inductive exn : Type :=
| RuntimeError
| ValueError
| KeyError
| IndexError
| TypeError
| AttributeError
| JSONDecodeError
| RequestException.   (* requests.RequestException and its subclasses *)

(** How a call ends: it returns, it raises, or (for the paginator's
    unbounded loop) the fuel given to the model ran out first. *)
Inductive outcome (A : Type) : Type :=
| Returned (a : A)
| Raised (e : exn)
| OutOfFuel.

Arguments Returned {A} a.
Arguments Raised {A} e.
Arguments OutOfFuel {A}.

Definition bind {A B : Type} (m : outcome A) (k : A -> outcome B)
  : outcome B :=
  match m with
  | Returned a => k a
  | Raised e => Raised e
  | OutOfFuel => OutOfFuel
  end.

Notation "x <- m ;; k" := (bind m (fun x => k))
  (at level 61, m at next level, right associativity).

(** The value a dict holds under [k], if any. *)
Fixpoint dict_item (k : string) (d : list (string * value)) : option value :=
  match d with
  | [] => None
  | (k', v) :: d' => if String.eqb k k' then Some v else dict_item k d'
  end.

(** [bool(v)] *)
Definition truthy (v : value) : bool :=
  match v with
  | VNone => false
  | VBool b => b
  | VInt n => negb (n =? 0)
  | VFloat q => negb (Qnum q =? 0)
  | VStr s => match s with EmptyString => false | String _ _ => true end
  | VList l => match l with [] => false | _ :: _ => true end
  | VDict d => match d with [] => false | _ :: _ => true end
  end.

(** [v.get(k, default)]: only a dict has the method. *)
Definition dict_get (v : value) (k : string) (default : value)
  : outcome value :=
  match v with
  | VDict d =>
      Returned (match dict_item k d with Some x => x | None => default end)
  | _ => Raised AttributeError
  end.

(** [v[k]] for a string [k]. *)
Definition subscript (v : value) (k : string) : outcome value :=
  match v with
  | VDict d =>
      match dict_item k d with
      | Some x => Returned x
      | None => Raised KeyError
      end
  | _ => Raised TypeError
  end.

(** [v[0]] *)
Definition subscript0 (v : value) : outcome value :=
  match v with
  | VList (x :: _) => Returned x
  | VList [] => Raised IndexError
  | VStr (String c _) => Returned (VStr (String c EmptyString))
  | VStr EmptyString => Raised IndexError
  | VDict _ => Raised KeyError
  | _ => Raised TypeError
  end.

End Py.

Module Requests.

Import Py.

(** The keyword arguments of [requests.get], [session.get] and
    [requests.post] the module uses. *)
Record Request : Type := mkRequest {
  method : string;
  url : string;
  params : list (string * value);
  headers : list (string * string);
  data : list (string * string);
  timeout : option Z
}.

(** A response: its status, the tree [BeautifulSoup(resp.text,
    "html.parser")] builds from its body, and what [resp.json()] gives
    ([None] when the body is not JSON and [json()] raises). *)
Record Response : Type := mkResponse {
  status_code : Z;
  soup : Bs4.node;
  json : option value
}.

(** The answer to a request: [None] when the call raises a
    [RequestException] (connection error, timeout, bad URL). *)
Definition answer : Type := option Response.

(** The network met by one run: the answer to the [n]-th request the run
    issues (counting from 0), given that request. *)
Definition network : Type := nat -> Request -> answer.

(** [resp.raise_for_status()] raises [HTTPError] for 4XX and 5XX. *)
Definition raise_for_status (resp : Response) : bool :=
  (400 <=? status_code resp) && (status_code resp <? 600).

(** The [try] block of the three scraping functions:
    [resp = get(...); resp.raise_for_status()]. [None] when either line
    raised a [RequestException]. *)
Definition fetch (net : network) (n : nat) (req : Request) : option Response :=
  match net n req with
  | None => None
  | Some resp => if raise_for_status resp then None else Some resp
  end.

End Requests.

(** ** The module [scraping.py] *)

Module Scraping.

Import Py Requests Bs4.

Section LaCuerda.

(** [urllib.parse.urljoin] belongs to the standard library of Python; the
    module only calls it. *)
Variable urljoin : string -> string -> string.

Variable net : network.

Definition site_root : string := "https://acordes.lacuerda.net".

Definition bot_headers : list (string * string) :=
  [("User-Agent",
    "Mozilla/5.0 (compatible; Bot/1.0; +https://yourdomain.com/bot)")].

Definition browser_headers : list (string * string) :=
  [("User-Agent",
    "Mozilla/5.0 (Windows NT 10.0; Win64; x64) AppleWebKit/537.36 (KHTML, like Gecko) Chrome/58.0.3029.110 Safari/537.3")].

(** [session.get(url, params=params, headers=headers, timeout=10)] of the
    paginator. *)
Definition listing_request (estilo_id : string) (ini : Z) : Request :=
  {| method := "GET";
     url := "https://acordes.lacuerda.net/ARCH/indices.php";
     params := [("ini", VInt ini); ("req_pais", VStr "ar");
                ("req_estilo", VStr estilo_id)];
     headers := bot_headers;
     data := [];
     timeout := Some 10 |}.

(** [requests.get(page_url, headers=headers, timeout=10)] of the two
    extractors. *)
Definition page_request (page_url : string) : Request :=
  {| method := "GET";
     url := page_url;
     params := [];
     headers := browser_headers;
     data := [];
     timeout := Some 10 |}.

(** The [ini] parameter of a request. *)
Definition ini_of (req : Request) : option Z :=
  match params req with
  | (_, VInt ini) :: _ => Some ini
  | _ => None
  end.

(** One turn of [for li in main_ul.find_all("li")], from the links appended
    so far. *)
Definition visit_li (artist_links : list string) (li : node) : list string :=
  match find li "a" [] with
  | Some a_tag =>
      match get a_tag "href" with          (* a_tag.has_attr("href") *)
      | Some href =>
          let relative_link := Str.strip href in
          let full_url := urljoin site_root relative_link in
          artist_links ++ [full_url]
      | None => artist_links
      end
  | None => artist_links
  end.

(** [artist_links] after the [for] loop over the list items of [main_ul]. *)
Definition artist_links_of (main_ul : node) : list string :=
  fold_left visit_li (find_all main_ul "li" []) [].

Section Paginator.

Variables (estilo_id : string) (increment delay : Z).

(** The [while True] loop, entered for the [n]-th time with the current
    [ini] and [all_artists]; it gives the requests issued from here on and
    how the function ends. [time.sleep] raises [ValueError] on a negative
    length. *)
Fixpoint while_true (fuel n : nat) (ini : Z) (all_artists : list string)
  : list Request * outcome (list string) :=
  match fuel with
  | O => ([], OutOfFuel)
  | S fuel' =>
      let req := listing_request estilo_id ini in
      match fetch net n req with
      | None => ([req], Returned all_artists)
      | Some resp =>
          match find (soup resp) "ul" [AttrIs "id" "i_main"] with
          | None => ([req], Returned all_artists)
          | Some main_ul =>
              match artist_links_of main_ul with
              | [] => ([req], Returned all_artists)
              | artist_links =>
                  let all_artists := all_artists ++ artist_links in
                  let ini := ini + increment in
                  if delay <? 0 then ([req], Raised ValueError)
                  else
                    let (reqs, out) := while_true fuel' (S n) ini all_artists in
                    (req :: reqs, out)
              end
          end
      end
  end.

End Paginator.

(** [fetch_all_artists(estilo_id, increment, max_retries, delay)]: the loop
    entered with [ini = 0] and [all_artists = []]. The body never reads
    [max_retries]. *)
Definition fetch_all_artists (estilo_id : string)
  (increment max_retries delay : Z) (fuel : nat)
  : list Request * outcome (list string) :=
  while_true estilo_id increment delay fuel 0%nat 0 [].

(** The [for a in a_tags] loop of [extract_urls_from_page]; [a['href']]
    raises [KeyError] on a tag without the attribute. *)
Fixpoint for_a_tags (page_url : string) (a_tags : list node)
  (urls : list string) : outcome (list string) :=
  match a_tags with
  | [] => Returned urls
  | a :: rest =>
      match get a "href" with
      | None => Raised KeyError
      | Some v =>
          let href := Str.strip v in
          let full_url := urljoin page_url href in
          for_a_tags page_url rest (urls ++ [full_url])
      end
  end.

Definition extract_urls_from_page (page_url : string)
  : outcome (list string) :=
  match fetch net 0%nat (page_request page_url) with
  | None => Returned []
  | Some response =>
      let urls := [] in
      match find (soup response) "ul" [AttrIs "id" "b_main"] with
      | None => Returned urls
      | Some b_main =>
          match find_all b_main "a" [AttrPresent "href"] with
          | [] => Returned urls
          | a_tags => for_a_tags page_url a_tags urls
          end
      end
  end.

Definition extract_lyrics_from_url (page_url : string) : outcome string :=
  match fetch net 0%nat (page_request page_url) with
  | None => Returned ""
  | Some response =>
      match find (soup response) "div" [ClassIs "rLetra"] with
      | None => Returned ""
      | Some r_letra_div => Returned (get_text r_letra_div "<br>")
      end
  end.

End LaCuerda.

Section Spotify.

(** [base64.b64encode(s.encode()).decode()] and the conversion of an
    f-string field, both of Python's own. *)
Variable b64encode : string -> string.
Variable str : value -> string.

Variable net : network.

Definition token_request (client_id client_secret : string) : Request :=
  {| method := "POST";
     url := "https://accounts.spotify.com/api/token";
     params := [];
     headers :=
       [("Authorization",
         ("Basic " ++ b64encode (client_id ++ ":" ++ client_secret))%string)];
     data := [("grant_type", "client_credentials")];
     timeout := None |}.

Definition search_request (song artist : string) (access_token : value)
  : Request :=
  {| method := "GET";
     url := "https://api.spotify.com/v1/search";
     params :=
       [("q", VStr ("track:" ++ song ++ " artist:" ++ artist)%string);
        ("type", VStr "track");
        ("limit", VInt 1)];
     headers := [("Authorization", ("Bearer " ++ str access_token)%string)];
     data := [];
     timeout := None |}.

(** A call outside any [try]: a [RequestException] goes to the caller. *)
Definition call (n : nat) (req : Request) : outcome Response :=
  match net n req with
  | Some resp => Returned resp
  | None => Raised RequestException
  end.

(** [resp.json()] *)
Definition json_of (resp : Response) : outcome value :=
  match json resp with
  | Some v => Returned v
  | None => Raised JSONDecodeError
  end.

Definition search_spotify (song artist client_id client_secret : string)
  : outcome value :=
  auth_response <- call 0%nat (token_request client_id client_secret) ;;
  access_token <-
    (if status_code auth_response =? 200
     then body <- json_of auth_response ;; subscript body "access_token"
     else Raised RuntimeError) ;;
  search_response <- call 1%nat (search_request song artist access_token) ;;
  if status_code search_response =? 200
  then
    data <- json_of search_response ;;
    tracks_obj <- dict_get data "tracks" (VDict []) ;;
    tracks <- dict_get tracks_obj "items" (VList []) ;;
    if truthy tracks
    then
      track <- subscript0 tracks ;;
      name <- subscript track "name" ;;
      album_obj <- subscript track "album" ;;
      album <- subscript album_obj "name" ;;
      album_obj' <- subscript track "album" ;;
      release_date <- subscript album_obj' "release_date" ;;
      Returned (VDict [("track", name); ("album", album);
                       ("release_date", release_date);
                       ("metadata", tracks)])
    else Returned (VDict [])
  else Returned (VDict []).

End Spotify.

End Scraping.

(** * Runs of the paginator: vocabulary *)

Module Run.

Import Py Requests Bs4 Scraping.

Section Pages.

Variable urljoin : string -> string -> string.
Variable net : network.
Variables (estilo_id : string) (increment : Z).

(** What one list item contributes: the resolved [href] of its first
    anchor, when there is one and it has the attribute. *)
Definition li_link (li : node) : list string :=
  match find li "a" [] with
  | Some a_tag =>
      match get a_tag "href" with
      | Some href => [urljoin site_root (Str.strip href)]
      | None => []
      end
  | None => []
  end.

(** The links of a container, list item by list item in document order. *)
Definition document_order_links (main_ul : node) : list string :=
  flat_map li_link (filter (matches "li" []) (descendants main_ul)).

(** The [n]-th request, sent with offset [ini], is answered by a page whose
    listing container is [main_ul]. *)
Definition yields (n : nat) (ini : Z) (main_ul : node) : Prop :=
  exists resp,
    fetch net n (listing_request estilo_id ini) = Some resp /\
    find (soup resp) "ul" [AttrIs "id" "i_main"] = Some main_ul.

(** The three ways the loop is left at its [n]-th turn. *)
Definition fails (n : nat) (ini : Z) : Prop :=
  fetch net n (listing_request estilo_id ini) = None.

Definition lacks_container (n : nat) (ini : Z) : Prop :=
  exists resp,
    fetch net n (listing_request estilo_id ini) = Some resp /\
    find (soup resp) "ul" [AttrIs "id" "i_main"] = None.

Definition has_no_links (n : nat) (ini : Z) : Prop :=
  exists main_ul,
    yields n ini main_ul /\ artist_links_of urljoin main_ul = [].

Definition stops (n : nat) (ini : Z) : Prop :=
  fails n ini \/ lacks_container n ini \/ has_no_links n ini.

(** Turns [n], [n+1], ... are answered by pages with the containers [uls],
    each with at least one link. *)
Fixpoint pages_from (n : nat) (ini : Z) (uls : list node) : Prop :=
  match uls with
  | [] => True
  | main_ul :: rest =>
      yields n ini main_ul /\
      artist_links_of urljoin main_ul <> [] /\
      pages_from (S n) (ini + increment) rest
  end.

(** The requests of [k] consecutive turns starting at offset [ini]. *)
Fixpoint requests_from (ini : Z) (k : nat) : list Request :=
  match k with
  | O => []
  | S k' => listing_request estilo_id ini :: requests_from (ini + increment) k'
  end.

(** From turn [n] at offset [ini] on, every turn is answered by a page
    with a container that gives links. *)
Definition goes_on (n : nat) (ini : Z) : Prop :=
  forall m,
    exists main_ul,
      yields (n + m) (ini + Z.of_nat m * increment) main_ul /\
      artist_links_of urljoin main_ul <> [].

End Pages.

(** A request of the paginator for the style [estilo_id]: everything but
    the offset is fixed. *)
Definition is_listing_request (estilo_id : string) (req : Request) : Prop :=
  method req = "GET" /\
  url req = "https://acordes.lacuerda.net/ARCH/indices.php" /\
  headers req = bot_headers /\
  data req = [] /\
  timeout req = Some 10 /\
  exists ini,
    params req = [("ini", VInt ini); ("req_pais", VStr "ar");
                  ("req_estilo", VStr estilo_id)].

(** The offsets [0, increment, 2*increment, ...] of [k] turns. *)
Definition progression (increment : Z) (k : nat) : list Z :=
  map (fun i => Z.of_nat i * increment) (seq 0 k).

Definition terminated {A : Type} (o : outcome A) : Prop :=
  match o with
  | OutOfFuel => False
  | _ => True
  end.

End Run.

(** * The other functions: vocabulary *)

Module Said.

Import Py Requests Bs4 Scraping.

(** A transport failure in the words of the specification: a connection
    error or timeout (the call raises), or a response that is not 2xx. *)
Definition transport_failure (a : answer) : Prop :=
  match a with
  | None => True
  | Some resp => ~ (200 <= status_code resp < 300)
  end.

(** The text nodes that are children of a tag. *)
Fixpoint text_nodes (l : list node) : list string :=
  match l with
  | [] => []
  | NavigableString s :: l' => s :: text_nodes l'
  | _ :: l' => text_nodes l'
  end.

Definition sibling_text_nodes (t : node) : list string :=
  match t with
  | Tag _ _ contents => text_nodes contents
  | _ => []
  end.

(** The plain text nodes anywhere below a tag, and those of them that are
    not blank. *)
Definition texts_below (t : node) : list string :=
  text_nodes (descendants t).

Definition blank (s : string) : bool :=
  match Str.strip s with
  | EmptyString => true
  | String _ _ => false
  end.

Definition lines_below (t : node) : list string :=
  filter (fun s => negb (blank s)) (texts_below t).

(** The [href] of an anchor, and the link the extractor makes of it. *)
Definition href_of (a : node) : string :=
  match get a "href" with
  | Some v => v
  | None => EmptyString
  end.

Definition link_of (urljoin : string -> string -> string)
  (page_url : string) (a : node) : string :=
  urljoin page_url (Str.strip (href_of a)).

(** The token request is answered 200 with a JSON object holding
    [access_token]. *)
Definition authenticates (b64encode : string -> string) (net : network)
  (client_id client_secret : string) (access_token : value) : Prop :=
  exists auth_response body,
    net 0%nat (token_request b64encode client_id client_secret)
      = Some auth_response /\
    status_code auth_response = 200 /\
    json auth_response = Some (VDict body) /\
    dict_item "access_token" body = Some access_token.

(** The search request is answered 200 with a JSON object whose
    [tracks.items] is the list [items]. *)
Definition finds (str : value -> string) (net : network)
  (song artist : string) (access_token : value) (items : list value) : Prop :=
  exists search_response data tracks_obj,
    net 1%nat (search_request str song artist access_token)
      = Some search_response /\
    status_code search_response = 200 /\
    json search_response = Some data /\
    dict_get data "tracks" (VDict []) = Returned tracks_obj /\
    dict_get tracks_obj "items" (VList []) = Returned (VList items).

(** A track object as the catalogue sends it, with the three fields read. *)
Definition is_track (track name album release_date : value) : Prop :=
  exists album_obj,
    subscript track "name" = Returned name /\
    subscript track "album" = Returned album_obj /\
    subscript album_obj "name" = Returned album /\
    subscript album_obj "release_date" = Returned release_date.

(** A match as [search_spotify] returns it: the three fields of a track
    and, as [metadata], a list of items that begins with that track. *)
Definition is_match (v : value) : Prop :=
  exists name album release_date track rest,
    v = VDict [("track", name); ("album", album);
               ("release_date", release_date);
               ("metadata", VList (track :: rest))] /\
    is_track track name album release_date.

(** What [search_spotify] does with the answer to its search request (the
    lines after [requests.get]). *)
Definition read_search (search_response : Response) : outcome value :=
  if status_code search_response =? 200
  then
    data <- json_of search_response ;;
    tracks_obj <- dict_get data "tracks" (VDict []) ;;
    tracks <- dict_get tracks_obj "items" (VList []) ;;
    if truthy tracks
    then
      track <- subscript0 tracks ;;
      name <- subscript track "name" ;;
      album_obj <- subscript track "album" ;;
      album <- subscript album_obj "name" ;;
      album_obj' <- subscript track "album" ;;
      release_date <- subscript album_obj' "release_date" ;;
      Returned (VDict [("track", name); ("album", album);
                       ("release_date", release_date);
                       ("metadata", tracks)])
    else Returned (VDict [])
  else Returned (VDict []).

(** The page answered to an extractor has no container
    [<ul id="b_main">], or one without an anchor that has an [href]. *)
Definition no_song_links (response : Response) : Prop :=
  match find (soup response) "ul" [AttrIs "id" "b_main"] with
  | None => True
  | Some b_main => find_all b_main "a" [AttrPresent "href"] = []
  end.

(** The page answered to an extractor has no [<div class="rLetra">], or
    one with no text below it but blanks. *)
Definition no_lyrics (response : Response) : Prop :=
  match find (soup response) "div" [ClassIs "rLetra"] with
  | None => True
  | Some block => lines_below block = []
  end.

End Said.

(** * Sample pages and networks *)

Module Sample.

Import Py Requests Bs4 Scraping.

Definition anchor (href text : string) : node :=
  Tag "a" [("href", href)] [NavigableString text].

Definition item (content : list node) : node := Tag "li" [] content.

Definition listing (items : list node) : node :=
  Tag "ul" [("id", "i_main")] items.

Definition document (body : list node) : node :=
  Tag "[document]" [] [Tag "html" [] [Tag "body" [] body]].

Definition ok (doc : node) : Response :=
  {| status_code := 200; soup := doc; json := None |}.

(** A resolver for the sample runs: an empty reference gives the base, a
    reference with a scheme stands, any other is appended to the base. *)
Definition urljoin (base ref : string) : string :=
  match ref with
  | EmptyString => base
  | String _ _ => if Url.is_absolute ref then ref else (base ++ ref)%string
  end.

Definition acdc : node := anchor "/acdc/" "AC/DC".
Definition airbag : node := anchor "/airbag/" "Airbag".
Definition almafuerte : node := anchor " /almafuerte/ " "Almafuerte".

Definition three_artists : node :=
  listing [item [acdc]; item [airbag]; item [almafuerte]].

(** A site with one listing page, at offset 0; any other offset gives a
    page without the container. *)
Definition one_page_site : network :=
  fun _ req =>
    match ini_of req with
    | Some 0 => Some (ok (document [three_artists]))
    | Some _ => Some (ok (document [NavigableString "fin"]))
    | None => None
    end.

(** A network that serves the listing page once and then drops the
    connection. *)
Definition drops_after_one : network :=
  fun n _ =>
    match n with
    | O => Some (ok (document [three_artists]))
    | S _ => None
    end.

(** As [drops_after_one], but the page comes with status 300. *)
Definition multiple_choices : network :=
  fun n _ =>
    match n with
    | O => Some {| status_code := 300;
                   soup := document [three_artists];
                   json := None |}
    | S _ => None
    end.

(** A list item with two anchors, for the listing and for the page of an
    artist. *)
Definition two_anchors : node :=
  item [anchor "/charly/" "Charly"; anchor "/charly/tabs" "tabs"].

Definition songs : node :=
  Tag "ul" [("id", "b_main")]
    [item [anchor "rezo.shtml" "Rezo por vos";
           anchor " rezo-2.shtml" "(2)";
           Tag "a" [("name", "fin")] []]].

Definition artist_page : string := "https://acordes.lacuerda.net/charly/".

(** A transport as [requests] has it: no answer for a URL that is not
    http(s); here every such URL gives the page of songs. *)
Definition song_site : network :=
  fun _ req =>
    if Url.is_web (url req) then Some (ok (document [songs])) else None.

(** The listing at its address (one page, at offset 0) and the page of
    songs at any other http(s) address. *)
Definition lacuerda : network :=
  fun n req =>
    if String.eqb (url req) "https://acordes.lacuerda.net/ARCH/indices.php"
    then one_page_site n req
    else song_site n req.

(** [<div class="rLetra">Line1<br> <br>Line2</div>] *)
Definition lyrics_block : node :=
  Tag "div" [("class", "rLetra")]
    [NavigableString "Line1"; Tag "br" [] [];
     NavigableString " "; Tag "br" [] [];
     NavigableString "Line2"].

Definition lyrics_site : network :=
  fun _ _ => Some (ok (document [lyrics_block])).

(** [<div class="letra rLetra"> Line1 <br>Line2<!-- x --></div>] *)
Definition plain_block : node :=
  Tag "div" [("class", "letra rLetra")]
    [NavigableString " Line1 "; Tag "br" [] [];
     NavigableString "Line2"; Comment " x "].

Definition plain_site : network :=
  fun _ _ => Some (ok (document [plain_block])).

Definition b64encode (s : string) : string := s.

Definition str (v : value) : string :=
  match v with
  | VStr s => s
  | _ => "?"
  end.

Definition yesterday : value :=
  VDict [("name", VStr "Yesterday");
         ("album", VDict [("name", VStr "Help!");
                          ("release_date", VStr "1965-08-06")])].

Definition token_response (status : Z) : Response :=
  {| status_code := status;
     soup := document [];
     json := Some (VDict [("access_token", VStr "BQD"); ("expires_in", VInt 3600)]) |}.

Definition search_response (status : Z) (items : list value) : Response :=
  {| status_code := status;
     soup := document [];
     json := Some (VDict [("tracks", VDict [("items", VList items)])]) |}.

(** The catalogue: the status of the token answer, then the status and
    items of the search answer. *)
Definition catalogue (auth_status search_status : Z) (items : list value)
  : network :=
  fun n _ =>
    match n with
    | O => Some (token_response auth_status)
    | S _ => Some (search_response search_status items)
    end.

(** A site whose listing has the same page at every offset. *)
Definition endless_site : network :=
  fun _ _ => Some (ok (document [three_artists])).

(** [<div class="rLetra">uno&lt;br&gt;dos<br>tres</div>]: the first text
    node holds the characters of the marker itself. *)
Definition marked_block : node :=
  Tag "div" [("class", "rLetra")]
    [NavigableString "uno<br>dos"; Tag "br" [] []; NavigableString "tres"].

Definition marked_site : network :=
  fun _ _ => Some (ok (document [marked_block])).

(** A response with the JSON body [v]. *)
Definition json_response (status : Z) (v : value) : Response :=
  {| status_code := status; soup := document []; json := Some v |}.

(** The network that gives [auth] to the first request and [search] to
    the second. *)
Definition answers (auth search : answer) : network :=
  fun n _ =>
    match n with
    | O => auth
    | S _ => search
    end.

(** A site that answers 404 with a page that has both the list of songs
    and a block of lyrics. *)
Definition not_found_page : Response :=
  {| status_code := 404;
     soup := document [songs; plain_block];
     json := None |}.

Definition not_found_site : network := fun _ _ => Some not_found_page.

(** A track without its album. *)
Definition untitled : value := VDict [("name", VStr "Yesterday")].

End Sample.

(** * Lemmas on the paginator *)

Import Py Requests Bs4 Scraping Run.

Section PaginatorFacts.

Variable urljoin : string -> string -> string.
Variable net : network.
Variables (estilo_id : string) (increment delay : Z).

Local Abbreviation loop := (while_true urljoin net estilo_id increment delay).
Local Abbreviation request := (listing_request estilo_id).

Lemma visit_li_app (acc : list string) (li : node) :
  visit_li urljoin acc li = acc ++ li_link urljoin li.
Proof.
  unfold visit_li, li_link.
  destruct (find li "a" []) as [a_tag|]; [|now rewrite app_nil_r].
  destruct (get a_tag "href"); [reflexivity|now rewrite app_nil_r].
Qed.

Lemma fold_visit_li (lis : list node) (acc : list string) :
  fold_left (visit_li urljoin) lis acc = acc ++ flat_map (li_link urljoin) lis.
Proof.
  revert acc; induction lis as [|li lis IH]; intros acc; simpl.
  - now rewrite app_nil_r.
  - now rewrite IH, visit_li_app, <- app_assoc.
Qed.

Lemma artist_links_in_document_order (main_ul : node) :
  artist_links_of urljoin main_ul = document_order_links urljoin main_ul.
Proof.
  unfold artist_links_of, document_order_links, find_all.
  now rewrite fold_visit_li.
Qed.

Lemma length_li_link (li : node) : (List.length (li_link urljoin li) <= 1)%nat.
Proof.
  unfold li_link.
  destruct (find li "a" []) as [a_tag|]; simpl; [|lia].
  destruct (get a_tag "href"); simpl; lia.
Qed.

Lemma length_flat_map_li_link (lis : list node) :
  (List.length (flat_map (li_link urljoin) lis) <= List.length lis)%nat.
Proof.
  induction lis as [|li lis IH]; simpl; [lia|].
  rewrite length_app. pose proof (length_li_link li). lia.
Qed.

(** The loop leaves at a turn that [stops]. *)
Lemma loop_stops (fuel n : nat) (ini : Z) (acc : list string) :
  stops urljoin net estilo_id n ini ->
  loop (S fuel) n ini acc = ([request ini], Returned acc).
Proof.
  intros [H | [(resp & Hf & Hu) | (main_ul & (resp & Hf & Hu) & Hl)]]; simpl.
  - unfold fails in H. now rewrite H.
  - now rewrite Hf, Hu.
  - now rewrite Hf, Hu, Hl.
Qed.

(** The loop goes round at a turn that finds links. *)
Lemma loop_page (fuel n : nat) (ini : Z) (acc : list string) (main_ul : node) :
  yields net estilo_id n ini main_ul ->
  artist_links_of urljoin main_ul <> [] ->
  loop (S fuel) n ini acc =
    if delay <? 0 then ([request ini], Raised ValueError)
    else (request ini
            :: fst (loop fuel (S n) (ini + increment)
                      (acc ++ artist_links_of urljoin main_ul)),
          snd (loop fuel (S n) (ini + increment)
                 (acc ++ artist_links_of urljoin main_ul))).
Proof.
  intros (resp & Hf & Hu) Hl; simpl.
  rewrite Hf, Hu.
  destruct (artist_links_of urljoin main_ul) as [|x l] eqn:E; [congruence|].
  destruct (delay <? 0); [reflexivity|].
  now destruct (while_true _ _ _ _ _ _ _ _ _).
Qed.

(** Every turn either stops or finds links. *)
Lemma stops_or_yields (n : nat) (ini : Z) :
  stops urljoin net estilo_id n ini \/
  exists main_ul,
    yields net estilo_id n ini main_ul /\ artist_links_of urljoin main_ul <> [].
Proof.
  unfold stops, fails, lacks_container, has_no_links, yields.
  destruct (fetch net n (request ini)) as [resp|] eqn:Hf; [|now left; left].
  destruct (find (soup resp) "ul" [AttrIs "id" "i_main"]) as [main_ul|] eqn:Hu.
  - destruct (artist_links_of urljoin main_ul) as [|x l] eqn:Hl.
    + left; right; right. exists main_ul. split; [exists resp|]; auto.
    + right. exists main_ul. split; [exists resp; auto|]. congruence.
  - left; right; left. exists resp; auto.
Qed.

(** A run over the pages [uls] that then stops: one request per turn, and
    the links of the pages appended in turn. *)
Lemma loop_pages (uls : list node) :
  forall (fuel n : nat) (ini : Z) (acc : list string),
    0 <= delay ->
    pages_from urljoin net estilo_id increment n ini uls ->
    stops urljoin net estilo_id (n + List.length uls)
      (ini + Z.of_nat (List.length uls) * increment) ->
    (List.length uls < fuel)%nat ->
    loop fuel n ini acc =
      (requests_from estilo_id increment ini (S (List.length uls)),
       Returned (acc ++ List.concat (map (artist_links_of urljoin) uls))).
Proof.
  induction uls as [|main_ul uls IH]; intros fuel n ini acc Hd Hp Hs Hfuel;
    (destruct fuel as [|fuel]; [simpl in Hfuel; lia|]).
  - simpl in Hs. rewrite Nat.add_0_r, Z.add_0_r in Hs.
    rewrite (loop_stops _ _ _ _ Hs). simpl. now rewrite app_nil_r.
  - destruct Hp as (Hy & Hl & Hp).
    rewrite (loop_page _ _ _ _ _ Hy Hl).
    destruct (Z.ltb_spec delay 0) as [?|_]; [lia|].
    rewrite (IH fuel (S n) (ini + increment)); trivial.
    + simpl. now rewrite <- app_assoc.
    + replace (S n + List.length uls)%nat with (n + List.length (main_ul :: uls))%nat
        by (simpl; lia).
      replace (ini + increment + Z.of_nat (List.length uls) * increment)
        with (ini + Z.of_nat (List.length (main_ul :: uls)) * increment)
        by (simpl List.length; lia).
      exact Hs.
    + simpl in Hfuel. lia.
Qed.

(** Whatever the network, the requests issued are those of consecutive
    turns: at most [fuel] of them, and at least one once the loop is
    entered. *)
Lemma loop_requests (fuel : nat) :
  forall (n : nat) (ini : Z) (acc : list string),
    exists k, (k <= fuel)%nat /\ (0 < fuel -> 0 < k)%nat /\
      fst (loop fuel n ini acc) = requests_from estilo_id increment ini k.
Proof.
  induction fuel as [|fuel IH]; intros n ini acc.
  - exists 0%nat. repeat split; [lia|lia].
  - destruct (stops_or_yields n ini) as [Hs | (main_ul & Hy & Hl)].
    + exists 1%nat. rewrite (loop_stops _ _ _ _ Hs). repeat split; lia.
    + rewrite (loop_page _ _ _ _ _ Hy Hl).
      destruct (delay <? 0).
      * exists 1%nat. repeat split; lia.
      * destruct (IH (S n) (ini + increment)
                    (acc ++ artist_links_of urljoin main_ul)) as (k & Hk & _ & E).
        exists (S k). repeat split; [lia|lia|]. simpl. now rewrite E.
Qed.

(** With a turn that stops ahead, the run ends: it returns, unless
    [time.sleep] refuses a negative [delay] first. *)
Lemma loop_terminates (k : nat) :
  forall (fuel n : nat) (ini : Z) (acc : list string),
    stops urljoin net estilo_id (n + k) (ini + Z.of_nat k * increment) ->
    (k < fuel)%nat ->
    terminated (snd (loop fuel n ini acc)) /\
    (0 <= delay -> exists l, snd (loop fuel n ini acc) = Returned l).
Proof.
  induction k as [|k IH]; intros fuel n ini acc Hs Hfuel;
    (destruct fuel as [|fuel]; [lia|]).
  - rewrite Nat.add_0_r in Hs. simpl Z.of_nat in Hs. rewrite Z.add_0_r in Hs.
    rewrite (loop_stops _ _ _ _ Hs). simpl. eauto.
  - destruct (stops_or_yields n ini) as [Hs' | (main_ul & Hy & Hl)].
    + rewrite (loop_stops _ _ _ _ Hs'). simpl. eauto.
    + rewrite (loop_page _ _ _ _ _ Hy Hl).
      destruct (Z.ltb_spec delay 0) as [Hneg|Hpos].
      * simpl. split; [exact I|lia].
      * cbn [snd]. apply IH; [|lia].
        replace (S n + k)%nat with (n + S k)%nat by lia.
        replace (ini + increment + Z.of_nat k * increment)
          with (ini + Z.of_nat (S k) * increment) by lia.
        exact Hs.
Qed.

(** No request follows the one of a turn that stops. *)
Lemma loop_requests_bound (k : nat) :
  forall (fuel n : nat) (ini : Z) (acc : list string),
    stops urljoin net estilo_id (n + k) (ini + Z.of_nat k * increment) ->
    (List.length (fst (loop fuel n ini acc)) <= S k)%nat.
Proof.
  induction k as [|k IH]; intros fuel n ini acc Hs;
    (destruct fuel as [|fuel]; [simpl; lia|]).
  - rewrite Nat.add_0_r in Hs. simpl Z.of_nat in Hs. rewrite Z.add_0_r in Hs.
    rewrite (loop_stops _ _ _ _ Hs). simpl. lia.
  - destruct (stops_or_yields n ini) as [Hs' | (main_ul & Hy & Hl)].
    + rewrite (loop_stops _ _ _ _ Hs'). simpl. lia.
    + rewrite (loop_page _ _ _ _ _ Hy Hl).
      destruct (delay <? 0); cbn [fst List.length]; [lia|].
      apply le_n_S, IH.
      replace (S n + k)%nat with (n + S k)%nat by lia.
      replace (ini + increment + Z.of_nat k * increment)
        with (ini + Z.of_nat (S k) * increment) by lia.
      exact Hs.
Qed.

(** The links returned are those held on entry and links of list items. *)
Lemma loop_links (P : string -> Prop) (fuel : nat) :
  (forall li, Forall P (li_link urljoin li)) ->
  forall (n : nat) (ini : Z) (acc l : list string),
    Forall P acc ->
    snd (loop fuel n ini acc) = Returned l ->
    Forall P l.
Proof.
  intros HP. induction fuel as [|fuel IH]; intros n ini acc l Hacc.
  - discriminate.
  - destruct (stops_or_yields n ini) as [Hs | (main_ul & Hy & Hl)].
    + rewrite (loop_stops _ _ _ _ Hs). simpl. now intros [= <-].
    + rewrite (loop_page _ _ _ _ _ Hy Hl).
      destruct (delay <? 0); [discriminate|]. cbn [snd].
      apply IH. apply Forall_app. split; [exact Hacc|].
      rewrite artist_links_in_document_order.
      unfold document_order_links.
      apply Forall_flat_map, Forall_forall. intros li _. apply HP.
Qed.

(** The offsets of consecutive requests. *)
Lemma offsets_requests_from (k : nat) :
  forall (ini : Z),
    map ini_of (requests_from estilo_id increment ini k) =
    map (fun i => Some (ini + Z.of_nat i * increment)) (seq 0 k).
Proof.
  induction k as [|k IH]; intros ini; [reflexivity|].
  cbn [requests_from map seq]. rewrite IH, <- seq_shift, map_map.
  f_equal.
  - change (ini_of (listing_request estilo_id ini)) with (Some ini).
    f_equal. lia.
  - apply map_ext. intros i. f_equal. lia.
Qed.

End PaginatorFacts.

Lemma progression_sorted (increment : Z) (k : nat) :
  0 < increment -> StronglySorted Z.lt (progression increment k).
Proof.
  intros Hinc. unfold progression. generalize 0%nat as s.
  induction k as [|k IH]; intros s; cbn [seq map]; constructor.
  - apply IH.
  - apply Forall_forall. intros z Hz.
    apply in_map_iff in Hz. destruct Hz as (i & <- & Hi).
    apply in_seq in Hi. nia.
Qed.

Lemma sorted_NoDup (l : list Z) : StronglySorted Z.lt l -> NoDup l.
Proof.
  induction 1 as [|z l _ IH Hall]; constructor; [|exact IH].
  intros Hin. rewrite Forall_forall in Hall. specialize (Hall z Hin). lia.
Qed.

(** * Lemmas on strings *)

Section StringFacts.

Import Str.

Lemma first_lstrip (s : string) (c : ascii) :
  first (lstrip s) = Some c -> isspace c = false.
Proof.
  induction s as [|a s IH]; simpl; [discriminate|].
  destruct (isspace a) eqn:E; [exact IH|].
  simpl. intros H. injection H as <-. exact E.
Qed.

Lemma last_rstrip (s : string) (c : ascii) :
  last (rstrip s) = Some c -> isspace c = false.
Proof.
  induction s as [|a s IH]; simpl; [discriminate|].
  destruct (rstrip s) as [|b r] eqn:E.
  - destruct (isspace a) eqn:Ea; simpl; [discriminate|].
    intros H. injection H as <-. exact Ea.
  - change (last (String a (String b r))) with
      (match last (String b r) with None => Some a | Some d => Some d end).
    destruct (last (String b r)) as [d|] eqn:El.
    + intros H. injection H as <-. now apply IH.
    + simpl in El. destruct (last r); discriminate.
Qed.

Lemma first_rstrip (s : string) :
  rstrip s <> EmptyString -> first (rstrip s) = first s.
Proof.
  destruct s as [|a s]; simpl; [congruence|].
  destruct (rstrip s); [destruct (isspace a)|]; simpl; congruence.
Qed.

Lemma strip_trimmed (s : string) : trimmed (strip s).
Proof.
  unfold trimmed, strip. split; intros c H.
  - rewrite first_rstrip in H by (intros E; rewrite E in H; discriminate).
    now apply first_lstrip in H.
  - now apply last_rstrip in H.
Qed.

Lemma first_append (a b : string) :
  a <> EmptyString -> first (a ++ b)%string = first a.
Proof. destruct a; simpl; congruence. Qed.

Lemma last_append (a b : string) :
  b <> EmptyString -> last (a ++ b)%string = last b.
Proof.
  intros Hb. induction a as [|c a IH]; simpl; [reflexivity|].
  rewrite IH. destruct b as [|d b]; [congruence|].
  simpl. now destruct (last b).
Qed.

Lemma append_nonempty_r (a b : string) :
  b <> EmptyString -> (a ++ b)%string <> EmptyString.
Proof. destruct a; simpl; congruence. Qed.

Lemma join_cons (sep x y : string) (l : list string) :
  join sep (x :: y :: l) = (x ++ sep ++ join sep (y :: l))%string.
Proof. reflexivity. Qed.

Lemma join_nonempty (sep x : string) (l : list string) :
  x <> EmptyString -> join sep (x :: l) <> EmptyString.
Proof.
  destruct l as [|y l]; [auto|]. rewrite join_cons.
  destruct x; simpl; congruence.
Qed.

(** A join of trimmed, non-empty pieces is trimmed. *)
Lemma join_trimmed (sep : string) (l : list string) :
  Forall (fun x => x <> EmptyString /\ trimmed x) l -> trimmed (join sep l).
Proof.
  intros H. split.
  - destruct H as [|x l [Hx [Hf _]] _]; [discriminate|].
    destruct l as [|y l]; [exact Hf|].
    rewrite join_cons, first_append by exact Hx. exact Hf.
  - induction H as [|x l [Hx [_ Hl]] Hrest IH]; [discriminate|].
    destruct l as [|y l]; [exact Hl|].
    rewrite join_cons, !last_append; [exact IH| |].
    + apply join_nonempty. now inversion Hrest.
    + apply append_nonempty_r, join_nonempty. now inversion Hrest.
Qed.

(** The marker does not begin inside a piece that a marker follows unless it
    lies within the piece. *)
Lemma prefix_br_straddle (c : ascii) (t r : string) :
  startswith (String c (t ++ "<br>" ++ r)) "<br>" =
  startswith (String c t) "<br>".
Proof.
  destruct t as [|c1 [|c2 [|c3 t]]]; cbn [startswith String.append];
    repeat match goal with
           | |- context [Ascii.eqb ?a ?b] =>
               destruct (Ascii.eqb_spec a b); try subst;
               cbn [andb]; try reflexivity; try discriminate
           end.
Qed.

Lemma occurrences_br_app (t r : string) :
  occurrences "<br>" (t ++ "<br>" ++ r) =
  (occurrences "<br>" t + 1 + occurrences "<br>" r)%nat.
Proof.
  induction t as [|c t IH].
  - reflexivity.
  - change (String c t ++ "<br>" ++ r)%string
      with (String c (t ++ "<br>" ++ r)).
    cbn [occurrences]. rewrite prefix_br_straddle, IH. lia.
Qed.

(** Markers in a join: one between consecutive pieces, and those the pieces
    hold themselves. *)
Lemma occurrences_br_join (l : list string) :
  occurrences "<br>" (join "<br>" l) =
  (Nat.pred (List.length l) + list_sum (map (occurrences "<br>") l))%nat.
Proof.
  induction l as [|x l IH]; [reflexivity|].
  destruct l as [|y l].
  - simpl. lia.
  - rewrite join_cons, occurrences_br_app, IH. simpl. lia.
Qed.

End StringFacts.

(** * Lemmas on the extractors *)

Section ExtractorFacts.

Import Said.

Variable urljoin : string -> string -> string.
Variable net : network.

Lemma for_a_tags_map (page_url : string) (a_tags : list node) :
  forall urls,
    Forall (fun a => has_attr a "href" = true) a_tags ->
    for_a_tags urljoin page_url a_tags urls =
      Returned (urls ++ map (link_of urljoin page_url) a_tags).
Proof.
  induction a_tags as [|a rest IH]; intros urls H; cbn [for_a_tags map].
  - now rewrite app_nil_r.
  - inversion_clear H as [|? ? Ha Hrest].
    unfold has_attr in Ha.
    destruct (get a "href") as [v|] eqn:E; [|discriminate].
    rewrite (IH _ Hrest), <- app_assoc.
    unfold link_of at 2, href_of. now rewrite E.
Qed.

Lemma find_all_href (b : node) :
  Forall (fun a => has_attr a "href" = true)
    (find_all b "a" [AttrPresent "href"]).
Proof.
  apply Forall_forall. intros a Ha.
  apply filter_In in Ha. destruct Ha as [_ Hm].
  destruct a as [s|s|name attrs contents]; try discriminate.
  cbn [matches forallb satisfies] in Hm.
  apply andb_prop in Hm. destruct Hm as [_ Hm].
  now apply andb_prop in Hm.
Qed.

(** On a page with the container, the extractor returns one link per
    anchor that has an [href]. *)
Lemma extract_urls_map (page_url : string) (response : Response)
  (b_main : node) :
  fetch net 0%nat (page_request page_url) = Some response ->
  find (soup response) "ul" [AttrIs "id" "b_main"] = Some b_main ->
  extract_urls_from_page urljoin net page_url =
    Returned (map (link_of urljoin page_url)
                (find_all b_main "a" [AttrPresent "href"])).
Proof.
  intros Hf Hb. unfold extract_urls_from_page. rewrite Hf, Hb.
  pose proof (find_all_href b_main) as H.
  destruct (find_all b_main "a" [AttrPresent "href"]) as [|a l] eqn:E;
    [reflexivity|].
  now rewrite for_a_tags_map.
Qed.

(** The extractor always returns, and a link it returns was made by
    [urljoin] from the URL of a page that was fetched. *)
Lemma extract_urls_returns (page_url : string) :
  exists l,
    extract_urls_from_page urljoin net page_url = Returned l /\
    (l = [] \/
     exists response hrefs,
       fetch net 0%nat (page_request page_url) = Some response /\
       l = map (urljoin page_url) hrefs).
Proof.
  destruct (fetch net 0%nat (page_request page_url)) as [response|] eqn:Hf.
  - destruct (find (soup response) "ul" [AttrIs "id" "b_main"])
      as [b_main|] eqn:Hb.
    + eexists. split; [exact (extract_urls_map _ _ _ Hf Hb)|].
      right. exists response.
      exists (map (fun a => Str.strip (href_of a))
                (find_all b_main "a" [AttrPresent "href"])).
      split; [reflexivity|]. now rewrite map_map.
    + exists []. unfold extract_urls_from_page. rewrite Hf, Hb. auto.
  - exists []. unfold extract_urls_from_page. rewrite Hf. auto.
Qed.

Lemma all_strings_lines (l : list node) :
  all_strings l =
  map Str.strip (filter (fun s => negb (blank s)) (text_nodes l)).
Proof.
  induction l as [|[s|s|name attrs contents] l IH]; cbn [all_strings text_nodes];
    trivial.
  cbn [filter]. unfold blank at 1.
  destruct (Str.strip s) eqn:E; cbn [negb map]; [exact IH|].
  now rewrite E, IH.
Qed.

Lemma all_strings_trimmed (l : list node) :
  Forall (fun x => x <> EmptyString /\ Str.trimmed x) (all_strings l).
Proof.
  rewrite all_strings_lines. apply Forall_map, Forall_forall.
  intros s Hs. apply filter_In in Hs. destruct Hs as [_ Hs].
  split; [|apply strip_trimmed].
  unfold blank in Hs. now destruct (Str.strip s).
Qed.

End ExtractorFacts.

Section MarkerFacts.

Import Str.

Lemma startswith_app (a w sub : string) :
  startswith a sub = true -> startswith (a ++ w) sub = true.
Proof.
  revert a; induction sub as [|c sub IH]; intros a; [reflexivity|].
  destruct a as [|d a]; cbn [startswith String.append]; [discriminate|].
  intros H. apply andb_prop in H. destruct H as [-> H]. now rewrite IH.
Qed.

Lemma occurrences_app_le (sub a w : string) :
  (occurrences sub a <= occurrences sub (a ++ w))%nat.
Proof.
  induction a as [|c a IH]; cbn [occurrences String.append]; [lia|].
  change (String c (a ++ w)) with (String c a ++ w)%string.
  destruct (startswith (String c a) sub) eqn:E.
  - rewrite (startswith_app _ w _ E). lia.
  - destruct (startswith (String c a ++ w) sub); lia.
Qed.

Lemma rstrip_prefix (s : string) : exists w, s = (rstrip s ++ w)%string.
Proof.
  induction s as [|c s [w IH]]; [now exists EmptyString|].
  cbn [rstrip]. destruct (rstrip s) as [|d r].
  - destruct (isspace c).
    + now exists (String c s).
    + exists s. reflexivity.
  - exists w. cbn [String.append]. f_equal. exact IH.
Qed.

Lemma occurrences_lstrip_le (sub s : string) :
  (occurrences sub (lstrip s) <= occurrences sub s)%nat.
Proof.
  induction s as [|c s IH]; cbn [lstrip]; [lia|].
  destruct (isspace c); [|lia]. cbn [occurrences]. lia.
Qed.

Lemma occurrences_strip_le (sub s : string) :
  (occurrences sub (strip s) <= occurrences sub s)%nat.
Proof.
  unfold strip. destruct (rstrip_prefix (lstrip s)) as [w E].
  pose proof (occurrences_app_le sub (rstrip (lstrip s)) w) as H.
  rewrite <- E in H. pose proof (occurrences_lstrip_le sub s). lia.
Qed.

Lemma no_marker_after_strip (sub : string) (l : list string) :
  Forall (fun s => occurrences sub s = 0%nat) l ->
  list_sum (map (fun s => occurrences sub (strip s)) l) = 0%nat.
Proof.
  induction 1 as [|s l Hs _ IH]; [reflexivity|].
  unfold list_sum in *. cbn [map fold_right]. rewrite IH.
  pose proof (occurrences_strip_le sub s). lia.
Qed.

End MarkerFacts.

(** * Lemmas on URLs *)

Section UrlFacts.

Import Url.

Lemma scheme_rest_app (s t sch : string) :
  scheme_rest s = Some sch -> scheme_rest (s ++ t) = Some sch.
Proof.
  revert sch; induction s as [|c s IH]; intros sch; cbn; [discriminate|].
  destruct (Ascii.eqb c ":"); [trivial|].
  destruct (is_scheme_char c); [|discriminate].
  destruct (scheme_rest s) as [r|]; [|discriminate].
  now rewrite (IH r eq_refl).
Qed.

Lemma is_absolute_app (b t : string) :
  is_absolute b = true -> is_absolute (b ++ t) = true.
Proof.
  unfold is_absolute, scheme_of. destruct b as [|c b]; [discriminate|].
  cbn [String.append]. destruct (is_alpha c); [|discriminate].
  destruct (scheme_rest b) as [r|] eqn:E; [|discriminate].
  now rewrite (scheme_rest_app _ t _ E).
Qed.

Lemma is_web_absolute (b : string) : is_web b = true -> is_absolute b = true.
Proof. unfold is_web, is_absolute. now destruct (scheme_of b). Qed.

(** The sample resolver gives an absolute URL from a web base. *)
Lemma sample_urljoin_absolute (base ref : string) :
  is_web base = true -> is_absolute (Sample.urljoin base ref) = true.
Proof.
  intros H. apply is_web_absolute in H. unfold Sample.urljoin.
  destruct ref as [|c r]; [exact H|].
  destruct (is_absolute (String c r)) eqn:E; [exact E|].
  now apply is_absolute_app.
Qed.

End UrlFacts.

(** * Sample runs *)

(** A negative [delay] is refused by [time.sleep] after the first page. *)
Example negative_delay_raises :
  snd (fetch_all_artists Sample.urljoin Sample.one_page_site "rock" 50 3 (-1) 5)
  = Raised ValueError.
Proof. reflexivity. Qed.

(** A URL without a scheme is refused by the transport: nothing is found. *)
Example page_url_without_scheme :
  extract_urls_from_page Sample.urljoin Sample.song_site
    "acordes.lacuerda.net/charly/" = Returned [].
Proof. reflexivity. Qed.

(** Without the content block the lyrics are the empty string. *)
Example no_lyrics_block :
  extract_lyrics_from_url Sample.song_site Sample.artist_page = Returned "".
Proof. reflexivity. Qed.

(** A token answer without [access_token] raises [KeyError]. *)
Example token_without_access_token :
  search_spotify Sample.b64encode Sample.str
    (fun _ _ => Some {| status_code := 200;
                        soup := Sample.document [];
                        json := Some (VDict []) |})
    "Yesterday" "Beatles" "id" "secret" = Raised KeyError.
Proof. reflexivity. Qed.

(** * The claims *)

Import Said.

(** C1. A run with [increment = 50] (and a delay [time.sleep] accepts)
    against a listing whose page at offset 0 holds the container
    [<ul id="i_main">] with exactly three anchors, one in each of its three
    list items and each with an [href], and whose page at offset 50 lacks
    the container: the second request goes out with [ini = 50], no third
    one follows, and the function returns the three links, resolved against
    the site root. *)
Theorem fetch_all_artists_three_links :
  forall (urljoin : string -> string -> string) (net : network)
    (estilo_id : string) (max_retries delay : Z) (fuel : nat)
    (resp0 resp1 : Response) (main_ul li1 li2 li3 a1 a2 a3 : node)
    (h1 h2 h3 : string),
    0 <= delay ->
    fetch net 0%nat (listing_request estilo_id 0) = Some resp0 ->
    find (soup resp0) "ul" [AttrIs "id" "i_main"] = Some main_ul ->
    find_all main_ul "a" [] = [a1; a2; a3] ->
    find_all main_ul "li" [] = [li1; li2; li3] ->
    find li1 "a" [] = Some a1 ->
    find li2 "a" [] = Some a2 ->
    find li3 "a" [] = Some a3 ->
    get a1 "href" = Some h1 ->
    get a2 "href" = Some h2 ->
    get a3 "href" = Some h3 ->
    fetch net 1%nat (listing_request estilo_id 50) = Some resp1 ->
    find (soup resp1) "ul" [AttrIs "id" "i_main"] = None ->
    (2 <= fuel)%nat ->
    fetch_all_artists urljoin net estilo_id 50 max_retries delay fuel =
      ([listing_request estilo_id 0; listing_request estilo_id 50],
       Returned [urljoin site_root (Str.strip h1);
                 urljoin site_root (Str.strip h2);
                 urljoin site_root (Str.strip h3)]).
Proof.
  intros urljoin net estilo_id max_retries delay fuel resp0 resp1 main_ul
    li1 li2 li3 a1 a2 a3 h1 h2 h3 Hd Hf0 Hu0 _ Hli Ha1 Ha2 Ha3 Hh1 Hh2 Hh3
    Hf1 Hu1 Hfuel.
  assert (Hlinks : artist_links_of urljoin main_ul =
                   [urljoin site_root (Str.strip h1);
                    urljoin site_root (Str.strip h2);
                    urljoin site_root (Str.strip h3)]).
  { unfold artist_links_of. rewrite Hli. cbn [fold_left]. unfold visit_li.
    now rewrite Ha1, Ha2, Ha3, Hh1, Hh2, Hh3. }
  unfold fetch_all_artists.
  rewrite (loop_pages urljoin net estilo_id 50 delay [main_ul]); trivial.
  - cbn [List.length requests_from map List.concat app].
    now rewrite Hlinks.
  - cbn [pages_from]. repeat split.
    + exists resp0. auto.
    + rewrite Hlinks. discriminate.
  - right; left. exists resp1. auto.
Qed.

Lemma fetch_all_artists_three_links_witness :
  fetch_all_artists Sample.urljoin Sample.one_page_site "rock" 50 3 1 2 =
    ([listing_request "rock" 0; listing_request "rock" 50],
     Returned ["https://acordes.lacuerda.net/acdc/";
               "https://acordes.lacuerda.net/airbag/";
               "https://acordes.lacuerda.net/almafuerte/"]).
Proof.
  apply (fetch_all_artists_three_links Sample.urljoin Sample.one_page_site
           "rock" 3 1 2
           (Sample.ok (Sample.document [Sample.three_artists]))
           (Sample.ok (Sample.document [NavigableString "fin"]))
           Sample.three_artists
           (Sample.item [Sample.acdc]) (Sample.item [Sample.airbag])
           (Sample.item [Sample.almafuerte])
           Sample.acdc Sample.airbag Sample.almafuerte
           "/acdc/" "/airbag/" " /almafuerte/ ");
    solve [reflexivity | lia].
Defined.

(** C2. For every finite sequence of listing pages, each with a container
    that yields at least one link, after which the loop is left, the list
    returned is the concatenation, in the order the pages were visited, of
    the links of each page in document order. *)
Theorem fetch_all_artists_page_order :
  forall (urljoin : string -> string -> string) (net : network)
    (estilo_id : string) (increment max_retries delay : Z)
    (uls : list node) (fuel : nat),
    0 <= delay ->
    pages_from urljoin net estilo_id increment 0 0 uls ->
    stops urljoin net estilo_id (List.length uls)
      (Z.of_nat (List.length uls) * increment) ->
    (List.length uls < fuel)%nat ->
    snd (fetch_all_artists urljoin net estilo_id increment max_retries delay
           fuel) =
      Returned (List.concat (map (document_order_links urljoin) uls)).
Proof.
  intros urljoin net estilo_id increment max_retries delay uls fuel
    Hd Hp Hs Hfuel.
  unfold fetch_all_artists.
  rewrite (loop_pages urljoin net estilo_id increment delay uls); trivial.
  cbn [snd app]. do 2 f_equal. apply map_ext.
  apply artist_links_in_document_order.
Qed.

Lemma fetch_all_artists_page_order_witness :
  snd (fetch_all_artists Sample.urljoin Sample.one_page_site "rock" 50 3 1 2)
  = Returned (List.concat (map (document_order_links Sample.urljoin)
                             [Sample.three_artists])).
Proof.
  apply (fetch_all_artists_page_order Sample.urljoin Sample.one_page_site
           "rock" 50 3 1 [Sample.three_artists] 2).
  - lia.
  - cbn [pages_from]. repeat split.
    + exists (Sample.ok (Sample.document [Sample.three_artists])).
      split; reflexivity.
    + discriminate.
  - right; left.
    exists (Sample.ok (Sample.document [NavigableString "fin"])).
    split; reflexivity.
  - simpl. lia.
Defined.

(** C3. Whenever the answer at some turn [k] (offset [k * increment]) has
    no listing container, or has one from which no link is extracted, the
    run ends: for every amount of fuel above [k] the loop is left, and it is
    left by returning the list (with a negative [delay], [time.sleep] may
    raise first). *)
Theorem fetch_all_artists_terminates :
  forall (urljoin : string -> string -> string) (net : network)
    (estilo_id : string) (increment max_retries delay : Z) (k : nat),
    lacks_container net estilo_id k (Z.of_nat k * increment) \/
    has_no_links urljoin net estilo_id k (Z.of_nat k * increment) ->
    forall fuel, (k < fuel)%nat ->
      terminated (snd (fetch_all_artists urljoin net estilo_id increment
                         max_retries delay fuel)) /\
      (0 <= delay ->
       exists l, snd (fetch_all_artists urljoin net estilo_id increment
                        max_retries delay fuel) = Returned l).
Proof.
  intros urljoin net estilo_id increment max_retries delay k Hk fuel Hfuel.
  apply (loop_terminates urljoin net estilo_id increment delay k fuel 0%nat 0);
    [|exact Hfuel].
  right. exact Hk.
Qed.

Lemma fetch_all_artists_terminates_witness :
  terminated (snd (fetch_all_artists Sample.urljoin Sample.one_page_site
                     "rock" 50 3 1 2)) /\
  (0 <= 1 ->
   exists l, snd (fetch_all_artists Sample.urljoin Sample.one_page_site
                    "rock" 50 3 1 2) = Returned l).
Proof.
  apply (fetch_all_artists_terminates Sample.urljoin Sample.one_page_site
           "rock" 50 3 1 1); [|lia].
  left. exists (Sample.ok (Sample.document [NavigableString "fin"])).
  split; reflexivity.
Defined.

(** C4. Every URL returned by [fetch_all_artists] and by
    [extract_urls_from_page] is absolute, whatever the [href]s of the
    document: each is the result of [urljoin] on the site root, or on a
    [page_url] that [requests] accepted. Assumed of the libraries: [urljoin]
    gives an absolute URL from an http(s) base, and [requests] raises on a
    URL that is not http(s). *)
Theorem links_are_absolute :
  forall (urljoin : string -> string -> string) (net : network),
    (forall base ref,
        Url.is_web base = true -> Url.is_absolute (urljoin base ref) = true) ->
    (forall n req, Url.is_web (url req) = false -> net n req = None) ->
    (forall estilo_id increment max_retries delay fuel l,
        snd (fetch_all_artists urljoin net estilo_id increment max_retries
               delay fuel) = Returned l ->
        Forall (fun u => Url.is_absolute u = true) l) /\
    (forall page_url,
        exists l,
          extract_urls_from_page urljoin net page_url = Returned l /\
          Forall (fun u => Url.is_absolute u = true) l).
Proof.
  intros urljoin net Hjoin Hnet. split.
  - intros estilo_id increment max_retries delay fuel l.
    apply (loop_links urljoin net estilo_id increment delay); [|constructor].
    intros li. unfold li_link.
    destruct (find li "a" []) as [a_tag|]; [|constructor].
    destruct (get a_tag "href"); constructor; [|constructor].
    now apply Hjoin.
  - intros page_url.
    destruct (extract_urls_returns urljoin net page_url)
      as (l & E & [-> | (response & hrefs & Hf & ->)]).
    + exists []. split; [exact E|constructor].
    + eexists. split; [exact E|].
      apply Forall_map, Forall_forall. intros href _. apply Hjoin.
      destruct (Url.is_web page_url) eqn:W; [reflexivity|].
      unfold fetch in Hf. rewrite (Hnet 0%nat (page_request page_url) W) in Hf.
      discriminate.
Qed.

Lemma links_are_absolute_witness :
  (forall l,
      snd (fetch_all_artists Sample.urljoin Sample.lacuerda "rock" 50 3 1 2)
        = Returned l ->
      Forall (fun u => Url.is_absolute u = true) l) /\
  (exists l,
      extract_urls_from_page Sample.urljoin Sample.lacuerda
        Sample.artist_page = Returned l /\
      Forall (fun u => Url.is_absolute u = true) l).
Proof.
  assert (Hnet : forall n req,
             Url.is_web (url req) = false -> Sample.lacuerda n req = None).
  { intros n req W. unfold Sample.lacuerda, Sample.song_site.
    destruct (String.eqb_spec (url req)
                "https://acordes.lacuerda.net/ARCH/indices.php") as [E|_].
    - rewrite E in W. discriminate.
    - now rewrite W. }
  destruct (links_are_absolute Sample.urljoin Sample.lacuerda
              sample_urljoin_absolute Hnet) as [Hpag Hext].
  split.
  - intros l. apply (Hpag "rock" 50 3 1 2%nat l).
  - apply (Hext Sample.artist_page).
Defined.

(** C5, as it stands, fails: with [increment = 0] the second request has
    the offset of the first. *)
Lemma zero_increment_repeats_offset :
  map ini_of
    (fst (fetch_all_artists Sample.urljoin Sample.drops_after_one
            "rock" 0 3 1 2)) = [Some 0; Some 0] /\
  ~ NoDup
      (map ini_of
         (fst (fetch_all_artists Sample.urljoin Sample.drops_after_one
                 "rock" 0 3 1 2))).
Proof.
  split; [reflexivity|].
  intros H. inversion H as [|x l Hin _]. apply Hin. now left.
Qed.

(** C5, amended. For every positive [increment], the offsets requested in a
    run are [0, increment, 2 * increment, ...]: they start at 0, grow
    strictly by [increment], and none is requested twice. *)
Theorem offsets_strictly_increase :
  forall (urljoin : string -> string -> string) (net : network)
    (estilo_id : string) (increment max_retries delay : Z) (fuel : nat),
    0 < increment ->
    exists k,
      (k <= fuel)%nat /\ (0 < fuel -> 0 < k)%nat /\
      map ini_of
        (fst (fetch_all_artists urljoin net estilo_id increment max_retries
                delay fuel)) = map Some (progression increment k) /\
      StronglySorted Z.lt (progression increment k) /\
      NoDup (progression increment k).
Proof.
  intros urljoin net estilo_id increment max_retries delay fuel Hinc.
  destruct (loop_requests urljoin net estilo_id increment delay fuel 0%nat 0 [])
    as (k & Hk & Hk' & E).
  exists k. repeat split; trivial.
  - unfold fetch_all_artists. rewrite E, offsets_requests_from.
    unfold progression. rewrite map_map. apply map_ext. intros i. f_equal.
  - now apply progression_sorted.
  - now apply sorted_NoDup, progression_sorted.
Qed.

Lemma offsets_strictly_increase_witness :
  exists k,
    (k <= 2)%nat /\ (0 < 2 -> 0 < k)%nat /\
    map ini_of
      (fst (fetch_all_artists Sample.urljoin Sample.one_page_site
              "rock" 50 3 1 2)) = map Some (progression 50 k) /\
    StronglySorted Z.lt (progression 50 k) /\
    NoDup (progression 50 k).
Proof.
  apply (offsets_strictly_increase Sample.urljoin Sample.one_page_site
           "rock" 50 3 1 2).
  lia.
Defined.

(** C6, as it stands, fails: a response that is not 2xx is not always taken
    for a failure. A page answered with status 300 at offset 0 is read, its
    links are returned and offset 50 is requested next, where the claim has
    the run abort at offset 0 with no link at all. *)
Lemma status_300_page_is_read :
  transport_failure (Sample.multiple_choices 0%nat (listing_request "rock" 0))
  /\
  snd (fetch_all_artists Sample.urljoin Sample.multiple_choices
         "rock" 50 3 1 2) =
    Returned ["https://acordes.lacuerda.net/acdc/";
              "https://acordes.lacuerda.net/airbag/";
              "https://acordes.lacuerda.net/almafuerte/"] /\
  snd (fetch_all_artists Sample.urljoin Sample.multiple_choices
         "rock" 50 3 1 2) <> Returned [] /\
  map ini_of
    (fst (fetch_all_artists Sample.urljoin Sample.multiple_choices
            "rock" 50 3 1 2)) = [Some 0; Some 50].
Proof.
  split; [|split; [|split]].
  - simpl. lia.
  - reflexivity.
  - discriminate.
  - reflexivity.
Qed.

(** C6, amended. If the fetch at some offset raises (connection error,
    timeout) or is answered with a 4XX or 5XX status, the pages before it
    having each given links, [fetch_all_artists] does not raise and does not
    retry: one request went to each offset up to the failing one, and the
    function returns exactly the links of the pages before it. *)
Theorem fetch_all_artists_aborts_on_failure :
  forall (urljoin : string -> string -> string) (net : network)
    (estilo_id : string) (increment max_retries delay : Z)
    (uls : list node) (fuel : nat),
    0 <= delay ->
    pages_from urljoin net estilo_id increment 0 0 uls ->
    (net (List.length uls)
         (listing_request estilo_id (Z.of_nat (List.length uls) * increment))
       = None \/
     exists resp,
       net (List.length uls)
         (listing_request estilo_id (Z.of_nat (List.length uls) * increment))
         = Some resp /\
       400 <= status_code resp < 600) ->
    (List.length uls < fuel)%nat ->
    fetch_all_artists urljoin net estilo_id increment max_retries delay fuel =
      (requests_from estilo_id increment 0 (S (List.length uls)),
       Returned (List.concat (map (artist_links_of urljoin) uls))).
Proof.
  intros urljoin net estilo_id increment max_retries delay uls fuel
    Hd Hp Hfail Hfuel.
  unfold fetch_all_artists.
  apply (loop_pages urljoin net estilo_id increment delay uls); trivial.
  left.
  change (fails net estilo_id (List.length uls)
            (Z.of_nat (List.length uls) * increment)).
  unfold fails, fetch.
  destruct Hfail as [-> | (resp & -> & Hst)]; [reflexivity|].
  unfold raise_for_status.
  destruct (Z.leb_spec 400 (status_code resp)); [|lia].
  destruct (Z.ltb_spec (status_code resp) 600); [reflexivity|lia].
Qed.

Lemma fetch_all_artists_aborts_on_failure_witness :
  fetch_all_artists Sample.urljoin Sample.drops_after_one "rock" 50 3 1 2 =
    (requests_from "rock" 50 0 2,
     Returned (List.concat (map (artist_links_of Sample.urljoin)
                              [Sample.three_artists]))).
Proof.
  apply (fetch_all_artists_aborts_on_failure Sample.urljoin
           Sample.drops_after_one "rock" 50 3 1 [Sample.three_artists] 2).
  - lia.
  - cbn [pages_from]. repeat split.
    + exists (Sample.ok (Sample.document [Sample.three_artists])).
      split; reflexivity.
    + discriminate.
  - left. reflexivity.
  - simpl. lia.
Defined.

(** C7, as it stands, fails: a text node that is blank is skipped, and no
    marker is written for it. The block
    [<div class="rLetra">Line1<br> <br>Line2</div>] has three sibling text
    nodes and its text has one marker, not two. *)
Lemma blank_text_node_is_skipped :
  find (Sample.document [Sample.lyrics_block]) "div" [ClassIs "rLetra"]
    = Some Sample.lyrics_block /\
  List.length (sibling_text_nodes Sample.lyrics_block) = 3%nat /\
  extract_lyrics_from_url Sample.lyrics_site Sample.artist_page
    = Returned "Line1<br>Line2" /\
  Str.occurrences "<br>" "Line1<br>Line2" <>
    (List.length (sibling_text_nodes Sample.lyrics_block) - 1)%nat.
Proof.
  repeat split; try reflexivity. simpl. lia.
Qed.

(** C7, amended. For a content page whose first [<div class="rLetra">]
    holds N text nodes that are not blank (at any depth below it, comments
    apart), none of them containing ["<br>"], [extract_lyrics_from_url]
    returns one string with exactly N-1 occurrences of ["<br>"] (none when N
    is 0) and no whitespace at either end. *)
Theorem lyrics_line_breaks :
  forall (net : network) (page_url : string) (response : Response)
    (block : node),
    fetch net 0%nat (page_request page_url) = Some response ->
    find (soup response) "div" [ClassIs "rLetra"] = Some block ->
    Forall (fun s => Str.occurrences "<br>" s = 0%nat) (lines_below block) ->
    exists lyrics,
      extract_lyrics_from_url net page_url = Returned lyrics /\
      Str.occurrences "<br>" lyrics
        = (List.length (lines_below block) - 1)%nat /\
      Str.trimmed lyrics.
Proof.
  intros net page_url response block Hf Hb Hclean.
  exists (get_text block "<br>"). split; [|split].
  - unfold extract_lyrics_from_url. now rewrite Hf, Hb.
  - unfold get_text. rewrite occurrences_br_join, all_strings_lines.
    fold (texts_below block). fold (lines_below block).
    rewrite length_map, map_map.
    rewrite (no_marker_after_strip _ _ Hclean). lia.
  - unfold get_text. apply join_trimmed, all_strings_trimmed.
Qed.

Lemma lyrics_line_breaks_witness :
  exists lyrics,
    extract_lyrics_from_url Sample.plain_site Sample.artist_page
      = Returned lyrics /\
    Str.occurrences "<br>" lyrics
      = (List.length (lines_below Sample.plain_block) - 1)%nat /\
    Str.trimmed lyrics.
Proof.
  apply (lyrics_line_breaks Sample.plain_site Sample.artist_page
           (Sample.ok (Sample.document [Sample.plain_block]))
           Sample.plain_block).
  - reflexivity.
  - reflexivity.
  - repeat constructor.
Defined.

(** C8. [search_spotify] raises [RuntimeError] when the token endpoint
    answers with a status other than 200. Once authenticated, it returns the
    empty dictionary, without raising, when the search answers with a status
    other than 200 and when it answers 200 with no track item; when it
    answers 200 with at least one item it returns the track name, album
    name and release date of the first item, and the whole list of items as
    [metadata]. *)
Theorem search_spotify_outcomes :
  forall (b64encode : string -> string) (str : value -> string)
    (net : network) (song artist client_id client_secret : string),
    (forall auth_response,
        net 0%nat (token_request b64encode client_id client_secret)
          = Some auth_response ->
        status_code auth_response <> 200 ->
        search_spotify b64encode str net song artist client_id client_secret
          = Raised RuntimeError) /\
    (forall access_token,
        authenticates b64encode net client_id client_secret access_token ->
        (forall search_response,
            net 1%nat (search_request str song artist access_token)
              = Some search_response ->
            status_code search_response <> 200 ->
            search_spotify b64encode str net song artist client_id
              client_secret = Returned (VDict [])) /\
        (finds str net song artist access_token [] ->
         search_spotify b64encode str net song artist client_id
           client_secret = Returned (VDict [])) /\
        (forall track rest name album release_date,
            finds str net song artist access_token (track :: rest) ->
            is_track track name album release_date ->
            search_spotify b64encode str net song artist client_id
              client_secret =
              Returned (VDict [("track", name); ("album", album);
                               ("release_date", release_date);
                               ("metadata", VList (track :: rest))]))).
Proof.
  intros b64encode str net song artist client_id client_secret. split.
  - intros auth_response Hnet Hst. unfold search_spotify, call.
    rewrite Hnet. cbn [bind].
    destruct (Z.eqb_spec (status_code auth_response) 200); [contradiction|].
    reflexivity.
  - intros access_token (auth_response & body & Hnet & Hst & Hjson & Htok).
    assert (Hstep : search_spotify b64encode str net song artist client_id
                      client_secret =
                    bind (call net 1%nat
                            (search_request str song artist access_token))
                      (fun search_response =>
                         if status_code search_response =? 200
                         then
                           data <- json_of search_response ;;
                           tracks_obj <- dict_get data "tracks" (VDict []) ;;
                           tracks <- dict_get tracks_obj "items" (VList []) ;;
                           if truthy tracks
                           then
                             track <- subscript0 tracks ;;
                             name <- subscript track "name" ;;
                             album_obj <- subscript track "album" ;;
                             album <- subscript album_obj "name" ;;
                             album_obj' <- subscript track "album" ;;
                             release_date <-
                               subscript album_obj' "release_date" ;;
                             Returned
                               (VDict [("track", name); ("album", album);
                                       ("release_date", release_date);
                                       ("metadata", tracks)])
                           else Returned (VDict [])
                         else Returned (VDict []))).
    { unfold search_spotify, call at 1, json_of at 1.
      rewrite Hnet. cbn [bind]. rewrite Hst, Hjson. cbn [Z.eqb Pos.eqb bind].
      unfold subscript at 1. rewrite Htok. reflexivity. }
    rewrite Hstep. clear Hstep. repeat split.
    + intros search_response Hs Hne. unfold call. rewrite Hs. cbn [bind].
      destruct (Z.eqb_spec (status_code search_response) 200);
        [contradiction|reflexivity].
    + intros (search_response & data & tracks_obj & Hs & Hok & Hj & Ht & Hi).
      unfold call, json_of. rewrite Hs. cbn [bind]. rewrite Hok, Hj.
      cbn [Z.eqb Pos.eqb bind]. rewrite Ht. cbn [bind]. rewrite Hi.
      reflexivity.
    + intros track rest name album release_date
        (search_response & data & tracks_obj & Hs & Hok & Hj & Ht & Hi)
        (album_obj & Hn & Ha & Han & Hard).
      unfold call, json_of. rewrite Hs. cbn [bind]. rewrite Hok, Hj.
      cbn [Z.eqb Pos.eqb bind]. rewrite Ht. cbn [bind]. rewrite Hi.
      cbn [bind truthy subscript0]. rewrite Hn. cbn [bind]. rewrite Ha.
      cbn [bind]. rewrite Han. cbn [bind]. rewrite Hard. reflexivity.
Qed.

Lemma search_spotify_outcomes_witness :
  search_spotify Sample.b64encode Sample.str
    (Sample.catalogue 401 200 [Sample.yesterday])
    "Yesterday" "Beatles" "id" "secret" = Raised RuntimeError /\
  search_spotify Sample.b64encode Sample.str
    (Sample.catalogue 200 503 [Sample.yesterday])
    "Yesterday" "Beatles" "id" "secret" = Returned (VDict []) /\
  search_spotify Sample.b64encode Sample.str
    (Sample.catalogue 200 200 [])
    "Yesterday" "Beatles" "id" "secret" = Returned (VDict []) /\
  search_spotify Sample.b64encode Sample.str
    (Sample.catalogue 200 200 [Sample.yesterday])
    "Yesterday" "Beatles" "id" "secret" =
    Returned (VDict [("track", VStr "Yesterday"); ("album", VStr "Help!");
                     ("release_date", VStr "1965-08-06");
                     ("metadata", VList [Sample.yesterday])]).
Proof.
  assert (Hauth : forall search_status items,
             authenticates Sample.b64encode
               (Sample.catalogue 200 search_status items) "id" "secret"
               (VStr "BQD")).
  { intros search_status items.
    exists (Sample.token_response 200). eexists.
    repeat split; reflexivity. }
  assert (Hfinds : forall items,
             finds Sample.str (Sample.catalogue 200 200 items)
               "Yesterday" "Beatles" (VStr "BQD") items).
  { intros items.
    exists (Sample.search_response 200 items). do 2 eexists.
    repeat split; reflexivity. }
  split; [|split; [|split]].
  - apply (proj1 (search_spotify_outcomes Sample.b64encode Sample.str
                    (Sample.catalogue 401 200 [Sample.yesterday])
                    "Yesterday" "Beatles" "id" "secret")
             (Sample.token_response 401)).
    + reflexivity.
    + simpl. lia.
  - apply (proj1 (proj2 (search_spotify_outcomes Sample.b64encode Sample.str
                           (Sample.catalogue 200 503 [Sample.yesterday])
                           "Yesterday" "Beatles" "id" "secret")
                    (VStr "BQD") (Hauth _ _))
             (Sample.search_response 503 [Sample.yesterday])).
    + reflexivity.
    + simpl. lia.
  - apply (proj1 (proj2 (proj2 (search_spotify_outcomes Sample.b64encode
                                  Sample.str (Sample.catalogue 200 200 [])
                                  "Yesterday" "Beatles" "id" "secret")
                           (VStr "BQD") (Hauth _ _)))).
    apply Hfinds.
  - apply (proj2 (proj2 (proj2 (search_spotify_outcomes Sample.b64encode
                                  Sample.str
                                  (Sample.catalogue 200 200 [Sample.yesterday])
                                  "Yesterday" "Beatles" "id" "secret")
                           (VStr "BQD") (Hauth _ _)))
             Sample.yesterday [] (VStr "Yesterday") (VStr "Help!")
             (VStr "1965-08-06")).
    + apply Hfinds.
    + eexists. repeat split; reflexivity.
Defined.

(** C9. Two calls of [fetch_all_artists] that differ only in [max_retries]
    issue the same requests and end the same way: the argument is never
    read. A fetch that fails ends the run at once: no request follows it,
    not even to the same offset. *)
Theorem max_retries_is_ignored :
  forall (urljoin : string -> string -> string) (net : network)
    (estilo_id : string) (increment delay : Z) (m1 m2 : Z) (fuel : nat),
    fetch_all_artists urljoin net estilo_id increment m1 delay fuel =
    fetch_all_artists urljoin net estilo_id increment m2 delay fuel /\
    (forall k,
        fails net estilo_id k (Z.of_nat k * increment) ->
        (List.length
           (fst (fetch_all_artists urljoin net estilo_id increment m1 delay
                   fuel)) <= S k)%nat).
Proof.
  intros urljoin net estilo_id increment delay m1 m2 fuel.
  split; [reflexivity|].
  intros k Hk. unfold fetch_all_artists.
  apply (loop_requests_bound urljoin net estilo_id increment delay k).
  left. exact Hk.
Qed.

Lemma max_retries_is_ignored_witness :
  fetch_all_artists Sample.urljoin Sample.drops_after_one "rock" 50 0 1 5 =
  fetch_all_artists Sample.urljoin Sample.drops_after_one "rock" 50 10 1 5 /\
  (List.length
     (fst (fetch_all_artists Sample.urljoin Sample.drops_after_one
             "rock" 50 0 1 5)) <= 2)%nat.
Proof.
  destruct (max_retries_is_ignored Sample.urljoin Sample.drops_after_one
              "rock" 50 1 0 10 5) as [Hsame Hstop].
  split; [exact Hsame|].
  apply (Hstop 1%nat). reflexivity.
Defined.

(** C10. From each listing page [fetch_all_artists] takes at most one URL
    per [<li>] of the container: the [href] of the first [<a>] in that
    [<li>], so further anchors of the same item give nothing.
    [extract_urls_from_page] instead returns a link for every anchor of its
    container that has an [href]. *)
Theorem one_link_per_list_item :
  forall (urljoin : string -> string -> string) (net : network),
    (forall main_ul,
        artist_links_of urljoin main_ul =
          flat_map (li_link urljoin) (find_all main_ul "li" []) /\
        (List.length (artist_links_of urljoin main_ul)
         <= List.length (find_all main_ul "li" []))%nat) /\
    (forall page_url response b_main,
        fetch net 0%nat (page_request page_url) = Some response ->
        find (soup response) "ul" [AttrIs "id" "b_main"] = Some b_main ->
        extract_urls_from_page urljoin net page_url =
          Returned (map (link_of urljoin page_url)
                      (find_all b_main "a" [AttrPresent "href"]))).
Proof.
  intros urljoin net. split.
  - intros main_ul.
    pose proof (artist_links_in_document_order urljoin main_ul) as E.
    unfold document_order_links in E. fold (find_all main_ul "li" []) in E.
    split; [exact E|]. rewrite E. apply length_flat_map_li_link.
  - intros page_url response b_main. apply extract_urls_map.
Qed.

Lemma one_link_per_list_item_witness :
  artist_links_of Sample.urljoin (Sample.listing [Sample.two_anchors]) =
    ["https://acordes.lacuerda.net/charly/"] /\
  extract_urls_from_page Sample.urljoin Sample.song_site Sample.artist_page =
    Returned ["https://acordes.lacuerda.net/charly/rezo.shtml";
              "https://acordes.lacuerda.net/charly/rezo-2.shtml"].
Proof.
  destruct (one_link_per_list_item Sample.urljoin Sample.song_site)
    as [Hpag Hext].
  split.
  - destruct (Hpag (Sample.listing [Sample.two_anchors])) as [E _].
    rewrite E. reflexivity.
  - rewrite (Hext Sample.artist_page
               (Sample.ok (Sample.document [Sample.songs])) Sample.songs);
      reflexivity.
Defined.

(** * Further properties of the paginator *)

Section PaginatorMore.

Variable urljoin : string -> string -> string.
Variable net : network.
Variables (estilo_id : string) (increment delay : Z).

Local Abbreviation loop := (while_true urljoin net estilo_id increment delay).

Lemma requests_from_listing (k : nat) :
  forall ini,
    Forall (is_listing_request estilo_id)
      (requests_from estilo_id increment ini k).
Proof.
  induction k as [|k IH]; intros ini; cbn [requests_from]; constructor.
  - unfold is_listing_request. cbn. repeat split. now exists ini.
  - apply IH.
Qed.

(** While every turn finds links the loop is not left. *)
Lemma loop_goes_on (fuel : nat) :
  forall (n : nat) (ini : Z) (acc : list string),
    0 <= delay ->
    goes_on urljoin net estilo_id increment n ini ->
    loop fuel n ini acc = (requests_from estilo_id increment ini fuel, OutOfFuel).
Proof.
  induction fuel as [|fuel IH]; intros n ini acc Hd Hgo; [reflexivity|].
  destruct (Hgo 0%nat) as (main_ul & Hy & Hl).
  rewrite Nat.add_0_r in Hy. cbn [Z.of_nat] in Hy.
  rewrite Z.mul_0_l, Z.add_0_r in Hy.
  rewrite (loop_page _ _ _ _ _ _ _ _ _ _ Hy Hl).
  destruct (Z.ltb_spec delay 0) as [?|_]; [lia|].
  rewrite (IH (S n) (ini + increment)); [reflexivity|exact Hd|].
  intros m. destruct (Hgo (S m)) as (ul & Hy' & Hl').
  exists ul. split; [|exact Hl'].
  replace (S n + m)%nat with (n + S m)%nat by lia.
  replace (ini + increment + Z.of_nat m * increment)
    with (ini + Z.of_nat (S m) * increment) by lia.
  exact Hy'.
Qed.


(** What the loop returns begins with what it held on entry. *)
Lemma loop_prefix (fuel : nat) :
  forall (n : nat) (ini : Z) (acc l : list string),
    snd (loop fuel n ini acc) = Returned l -> exists rest, l = acc ++ rest.
Proof.
  induction fuel as [|fuel IH]; intros n ini acc l; [discriminate|].
  destruct (stops_or_yields urljoin net estilo_id n ini)
    as [Hs | (main_ul & Hy & Hl)].
  - rewrite (loop_stops _ _ _ _ _ _ _ _ _ Hs). cbn [snd]. intros [= <-].
    exists []. now rewrite app_nil_r.
  - rewrite (loop_page _ _ _ _ _ _ _ _ _ _ Hy Hl).
    destruct (delay <? 0); [discriminate|]. cbn [snd]. intros H.
    destruct (IH _ _ _ _ H) as (rest & ->).
    exists (artist_links_of urljoin main_ul ++ rest). now rewrite app_assoc.
Qed.

End PaginatorMore.

(** X1. Whatever the network answers, every request [fetch_all_artists]
    issues is a GET of the one listing address with the bot's user agent, a
    timeout of 10 seconds, the country filter ["ar"] and the style passed by
    the caller: only the offset [ini] varies. *)
Theorem every_request_is_a_listing_request :
  forall (urljoin : string -> string -> string) (net : network)
    (estilo_id : string) (increment max_retries delay : Z) (fuel : nat),
    Forall (is_listing_request estilo_id)
      (fst (fetch_all_artists urljoin net estilo_id increment max_retries
              delay fuel)).
Proof.
  intros urljoin net estilo_id increment max_retries delay fuel.
  destruct (loop_requests urljoin net estilo_id increment delay fuel 0%nat 0 [])
    as (k & _ & _ & E).
  unfold fetch_all_artists. rewrite E. apply requests_from_listing.
Qed.

(** X2. The loop has no bound of its own: against a site that gives links
    at every offset (and with a delay [time.sleep] accepts) the function
    never returns. Whatever the fuel, it is used up, with one request issued
    per unit of fuel. *)
Theorem fetch_all_artists_never_ends :
  forall (urljoin : string -> string -> string) (net : network)
    (estilo_id : string) (increment max_retries delay : Z),
    0 <= delay ->
    goes_on urljoin net estilo_id increment 0 0 ->
    forall fuel,
      fetch_all_artists urljoin net estilo_id increment max_retries delay fuel
      = (requests_from estilo_id increment 0 fuel, OutOfFuel).
Proof.
  intros urljoin net estilo_id increment max_retries delay Hd Hgo fuel.
  now apply loop_goes_on.
Qed.

Lemma fetch_all_artists_never_ends_witness :
  fetch_all_artists Sample.urljoin Sample.endless_site "rock" 50 3 1 4
  = (requests_from "rock" 50 0 4, OutOfFuel).
Proof.
  apply (fetch_all_artists_never_ends Sample.urljoin Sample.endless_site
           "rock" 50 3 1).
  - lia.
  - intros m. exists Sample.three_artists. split.
    + exists (Sample.ok (Sample.document [Sample.three_artists])).
      split; reflexivity.
    + discriminate.
Defined.



(** X4. With a negative [delay] no second page is ever requested: the
    function issues the request for offset 0 and then either returns the
    empty list or raises [ValueError], so it never returns a link. *)
Theorem negative_delay_stops_after_one_request :
  forall (urljoin : string -> string -> string) (net : network)
    (estilo_id : string) (increment max_retries delay : Z) (fuel : nat),
    delay < 0 ->
    (0 < fuel)%nat ->
    fst (fetch_all_artists urljoin net estilo_id increment max_retries delay
           fuel) = [listing_request estilo_id 0] /\
    (snd (fetch_all_artists urljoin net estilo_id increment max_retries delay
            fuel) = Returned [] \/
     snd (fetch_all_artists urljoin net estilo_id increment max_retries delay
            fuel) = Raised ValueError).
Proof.
  intros urljoin net estilo_id increment max_retries delay fuel Hd Hfuel.
  unfold fetch_all_artists. destruct fuel as [|fuel]; [lia|].
  destruct (stops_or_yields urljoin net estilo_id 0%nat 0)
    as [Hs | (main_ul & Hy & Hl)].
  - rewrite (loop_stops _ _ _ _ _ _ _ _ _ Hs). auto.
  - rewrite (loop_page _ _ _ _ _ _ _ _ _ _ Hy Hl).
    destruct (Z.ltb_spec delay 0) as [_|?]; [auto|lia].
Qed.

Lemma negative_delay_stops_after_one_request_witness :
  fst (fetch_all_artists Sample.urljoin Sample.endless_site "rock" 50 3 (-1) 5)
    = [listing_request "rock" 0] /\
  (snd (fetch_all_artists Sample.urljoin Sample.endless_site "rock" 50 3
          (-1) 5) = Returned [] \/
   snd (fetch_all_artists Sample.urljoin Sample.endless_site "rock" 50 3
          (-1) 5) = Raised ValueError).
Proof.
  apply (negative_delay_stops_after_one_request Sample.urljoin
           Sample.endless_site "rock" 50 3 (-1) 5); lia.
Defined.

(** X5. The empty list is returned exactly when the loop is left at its
    first turn: the first fetch failed, or its page has no container, or a
    container without links. A caller cannot tell these apart, and any page
    that gave links shows in the result. *)
Theorem empty_result_iff_first_turn_stops :
  forall (urljoin : string -> string -> string) (net : network)
    (estilo_id : string) (increment max_retries delay : Z) (fuel : nat),
    (0 < fuel)%nat ->
    (snd (fetch_all_artists urljoin net estilo_id increment max_retries delay
            fuel) = Returned [] <->
     stops urljoin net estilo_id 0 0).
Proof.
  intros urljoin net estilo_id increment max_retries delay fuel Hfuel.
  unfold fetch_all_artists. destruct fuel as [|fuel]; [lia|]. split.
  - intros H.
    destruct (stops_or_yields urljoin net estilo_id 0%nat 0)
      as [Hs | (main_ul & Hy & Hl)]; [exact Hs|exfalso].
    rewrite (loop_page _ _ _ _ _ _ _ _ _ _ Hy Hl) in H.
    destruct (delay <? 0); [discriminate|]. cbn [snd] in H.
    apply loop_prefix in H. destruct H as (rest & H).
    cbn [app] in H. symmetry in H. apply app_eq_nil in H. now destruct H.
  - intros Hs. now rewrite (loop_stops _ _ _ _ _ _ _ _ _ Hs).
Qed.

Lemma empty_result_iff_first_turn_stops_witness :
  snd (fetch_all_artists Sample.urljoin Sample.song_site "rock" 50 3 1 3)
    = Returned [] <->
  stops Sample.urljoin Sample.song_site "rock" 0 0.
Proof.
  apply (empty_result_iff_first_turn_stops Sample.urljoin Sample.song_site
           "rock" 50 3 1 3).
  lia.
Defined.

(** * Further properties of the extractors *)

Section ExtractorMore.

Lemma join_empty (sep : string) (l : list string) :
  Forall (fun x => x <> EmptyString) l ->
  Str.join sep l = EmptyString -> l = [].
Proof.
  intros H E. destruct H as [|x l Hx _]; [reflexivity|].
  now apply (join_nonempty sep x l) in Hx.
Qed.

Lemma all_strings_nonempty (l : list node) :
  Forall (fun x => x <> EmptyString) (all_strings l).
Proof.
  eapply Forall_impl; [|apply all_strings_trimmed]. now intros x [Hx _].
Qed.

Lemma empty_trimmed : Str.trimmed EmptyString.
Proof. split; intros c H; discriminate. Qed.

End ExtractorMore.


(** X7. [extract_urls_from_page] returns the empty list exactly when the
    fetch failed, or the page has no [<ul id="b_main">], or that container
    has no anchor with an [href]: the three cases give the caller the same
    value. *)
Theorem extract_urls_empty_iff :
  forall (urljoin : string -> string -> string) (net : network)
    (page_url : string),
    extract_urls_from_page urljoin net page_url = Returned [] <->
    (fetch net 0%nat (page_request page_url) = None \/
     exists response,
       fetch net 0%nat (page_request page_url) = Some response /\
       no_song_links response).
Proof.
  intros urljoin net page_url. unfold no_song_links. split.
  - intros H.
    destruct (fetch net 0%nat (page_request page_url)) as [response|] eqn:Hf;
      [right|now left].
    exists response. split; [reflexivity|].
    destruct (find (soup response) "ul" [AttrIs "id" "b_main"])
      as [b_main|] eqn:Hb; [|exact I].
    rewrite (extract_urls_map urljoin net _ _ _ Hf Hb) in H.
    injection H as H. now apply map_eq_nil in H.
  - intros [Hf | (response & Hf & H)]; unfold extract_urls_from_page;
      rewrite Hf; [reflexivity|].
    destruct (find (soup response) "ul" [AttrIs "id" "b_main"]) as [b_main|];
      [|reflexivity].
    now rewrite H.
Qed.

(** X8. Whatever the network answers, [extract_lyrics_from_url] returns a
    string with no whitespace at either end (the empty string when the
    fetch failed or the page has no [<div class="rLetra">]). *)
Theorem lyrics_are_always_trimmed :
  forall (net : network) (page_url : string),
    exists lyrics,
      extract_lyrics_from_url net page_url = Returned lyrics /\
      Str.trimmed lyrics.
Proof.
  intros net page_url. unfold extract_lyrics_from_url.
  destruct (fetch net 0%nat (page_request page_url)) as [response|];
    [|exists EmptyString; split; [reflexivity|apply empty_trimmed]].
  destruct (find (soup response) "div" [ClassIs "rLetra"]) as [block|];
    [|exists EmptyString; split; [reflexivity|apply empty_trimmed]].
  eexists. split; [reflexivity|].
  unfold get_text. apply join_trimmed, all_strings_trimmed.
Qed.

(** X9. The markers of the lyrics are one between every two text nodes of
    the block that are not blank, plus those the stripped text nodes hold
    themselves: text that spells ["<br>"] is not told apart from a line
    break. *)
Theorem lyrics_marker_count :
  forall (net : network) (page_url : string) (response : Response)
    (block : node),
    fetch net 0%nat (page_request page_url) = Some response ->
    find (soup response) "div" [ClassIs "rLetra"] = Some block ->
    exists lyrics,
      extract_lyrics_from_url net page_url = Returned lyrics /\
      Str.occurrences "<br>" lyrics =
        (Nat.pred (List.length (lines_below block)) +
         list_sum (map (fun s => Str.occurrences "<br>" (Str.strip s))
                     (lines_below block)))%nat.
Proof.
  intros net page_url response block Hf Hb.
  exists (get_text block "<br>"). split.
  - unfold extract_lyrics_from_url. now rewrite Hf, Hb.
  - unfold get_text. rewrite occurrences_br_join, all_strings_lines.
    fold (texts_below block). fold (lines_below block).
    now rewrite length_map, map_map.
Qed.

Lemma lyrics_marker_count_witness :
  exists lyrics,
    extract_lyrics_from_url Sample.marked_site Sample.artist_page
      = Returned lyrics /\
    Str.occurrences "<br>" lyrics =
      (Nat.pred (List.length (lines_below Sample.marked_block)) +
       list_sum (map (fun s => Str.occurrences "<br>" (Str.strip s))
                   (lines_below Sample.marked_block)))%nat.
Proof.
  apply (lyrics_marker_count Sample.marked_site Sample.artist_page
           (Sample.ok (Sample.document [Sample.marked_block]))
           Sample.marked_block); reflexivity.
Defined.

(** X10. [extract_lyrics_from_url] returns the empty string exactly when
    the fetch failed, or the page has no [<div class="rLetra">], or that
    block holds no text but blanks: an error and an empty page look the
    same to the caller. *)
Theorem lyrics_empty_iff :
  forall (net : network) (page_url : string),
    extract_lyrics_from_url net page_url = Returned "" <->
    (fetch net 0%nat (page_request page_url) = None \/
     exists response,
       fetch net 0%nat (page_request page_url) = Some response /\
       no_lyrics response).
Proof.
  intros net page_url. unfold no_lyrics, extract_lyrics_from_url. split.
  - intros H.
    destruct (fetch net 0%nat (page_request page_url)) as [response|];
      [right|now left].
    exists response. split; [reflexivity|].
    destruct (find (soup response) "div" [ClassIs "rLetra"]) as [block|];
      [|exact I].
    injection H as H. unfold get_text in H.
    apply join_empty in H; [|apply all_strings_nonempty].
    rewrite all_strings_lines in H. now apply map_eq_nil in H.
  - intros [-> | (response & -> & H)]; [reflexivity|].
    destruct (find (soup response) "div" [ClassIs "rLetra"]) as [block|];
      [|reflexivity].
    unfold get_text. rewrite all_strings_lines.
    fold (texts_below block). fold (lines_below block). now rewrite H.
Qed.

(** X16. A page answered with a 4XX or 5XX status is never read: whatever
    it holds, [extract_urls_from_page] returns the empty list and
    [extract_lyrics_from_url] the empty string. *)
Theorem error_pages_are_not_read :
  forall (urljoin : string -> string -> string) (net : network)
    (page_url : string) (resp : Response),
    net 0%nat (page_request page_url) = Some resp ->
    400 <= status_code resp < 600 ->
    extract_urls_from_page urljoin net page_url = Returned [] /\
    extract_lyrics_from_url net page_url = Returned "".
Proof.
  intros urljoin net page_url resp Hnet Hst.
  assert (Hf : fetch net 0%nat (page_request page_url) = None).
  { unfold fetch, raise_for_status. rewrite Hnet.
    destruct (Z.leb_spec 400 (status_code resp)); [|lia].
    destruct (Z.ltb_spec (status_code resp) 600); [reflexivity|lia]. }
  unfold extract_urls_from_page, extract_lyrics_from_url.
  now rewrite Hf.
Qed.

Lemma error_pages_are_not_read_witness :
  extract_urls_from_page Sample.urljoin Sample.not_found_site
    Sample.artist_page = Returned [] /\
  extract_lyrics_from_url Sample.not_found_site Sample.artist_page
    = Returned "".
Proof.
  apply (error_pages_are_not_read Sample.urljoin Sample.not_found_site
           Sample.artist_page Sample.not_found_page).
  - reflexivity.
  - simpl. lia.
Defined.

(** * Further properties of the catalogue lookup *)

Section SpotifyMore.

Variable b64encode : string -> string.
Variable str : value -> string.
Variable net : network.
Variables (song artist client_id client_secret : string).

Local Abbreviation lookup_result :=
  (search_spotify b64encode str net song artist client_id client_secret).

(** [search_spotify], step by step. *)
Lemma search_spotify_steps :
  lookup_result =
    (auth_response <-
       call net 0%nat (token_request b64encode client_id client_secret) ;;
     access_token <-
       (if status_code auth_response =? 200
        then body <- json_of auth_response ;; subscript body "access_token"
        else Raised RuntimeError) ;;
     search_response <-
       call net 1%nat (search_request str song artist access_token) ;;
     read_search search_response).
Proof. reflexivity. Qed.

(** Once the token is there, the search answer decides. *)
Lemma search_after_token (access_token : value) :
  authenticates b64encode net client_id client_secret access_token ->
  lookup_result =
    (search_response <-
       call net 1%nat (search_request str song artist access_token) ;;
     read_search search_response).
Proof.
  intros (auth_response & body & Hnet & Hst & Hjson & Htok).
  rewrite search_spotify_steps. unfold call at 1, json_of.
  rewrite Hnet. cbn [bind]. rewrite Hst, Hjson. cbn [Z.eqb Pos.eqb bind].
  unfold subscript at 1. now rewrite Htok.
Qed.

Lemma dict_get_not_runtime (v : value) (k : string) (d : value) :
  dict_get v k d <> Raised RuntimeError.
Proof. destruct v; discriminate. Qed.

Lemma subscript_not_runtime (v : value) (k : string) :
  subscript v k <> Raised RuntimeError.
Proof.
  destruct v; try discriminate. cbn. destruct (dict_item k d); discriminate.
Qed.

Lemma subscript0_not_runtime (v : value) :
  subscript0 v <> Raised RuntimeError.
Proof.
  destruct v as [| | | |s|l|d]; try discriminate.
  - destruct s; discriminate.
  - destruct l; discriminate.
Qed.

(** The search answer never leads to [RuntimeError]. *)
Lemma read_search_not_runtime (search_response : Response) :
  read_search search_response <> Raised RuntimeError.
Proof.
  unfold read_search, json_of.
  destruct (status_code search_response =? 200); [|discriminate].
  destruct (json search_response) as [data|]; cbn [bind]; [|discriminate].
  destruct (dict_get data "tracks" (VDict [])) as [tracks_obj|e|] eqn:E1;
    cbn [bind]; [|intros [= ->]; now apply dict_get_not_runtime in E1
                 |discriminate].
  destruct (dict_get tracks_obj "items" (VList [])) as [tracks|e|] eqn:E2;
    cbn [bind]; [|intros [= ->]; now apply dict_get_not_runtime in E2
                 |discriminate].
  destruct (truthy tracks); [|discriminate].
  destruct (subscript0 tracks) as [track|e|] eqn:E3;
    cbn [bind]; [|intros [= ->]; now apply subscript0_not_runtime in E3
                 |discriminate].
  destruct (subscript track "name") as [name|e|] eqn:E4;
    cbn [bind]; [|intros [= ->]; now apply subscript_not_runtime in E4
                 |discriminate].
  destruct (subscript track "album") as [album_obj|e|] eqn:E5;
    cbn [bind]; [|intros [= ->]; now apply subscript_not_runtime in E5
                 |discriminate].
  destruct (subscript album_obj "name") as [album|e|] eqn:E6;
    cbn [bind]; [|intros [= ->]; now apply subscript_not_runtime in E6
                 |discriminate].
  destruct (subscript album_obj "release_date") as [release_date|e|] eqn:E7;
    cbn [bind]; [discriminate
                 |intros [= ->]; now apply subscript_not_runtime in E7
                 |discriminate].
Qed.

(** What the search answer can make the function return. *)
Lemma read_search_shape (search_response : Response) (v : value) :
  read_search search_response = Returned v -> v = VDict [] \/ is_match v.
Proof.
  unfold read_search, json_of.
  destruct (status_code search_response =? 200); [|intros [= <-]; auto].
  destruct (json search_response) as [data|]; cbn [bind]; [|discriminate].
  destruct (dict_get data "tracks" (VDict [])) as [tracks_obj|e|];
    cbn [bind]; try discriminate.
  destruct (dict_get tracks_obj "items" (VList [])) as [tracks|e|];
    cbn [bind]; try discriminate.
  destruct (truthy tracks); [|intros [= <-]; auto].
  destruct tracks as [| | | |s|l|d]; cbn [subscript0 bind]; try discriminate.
  - destruct s; cbn [bind]; discriminate.
  - destruct l as [|track rest]; cbn [bind]; [discriminate|].
    destruct (subscript track "name") as [name|e|] eqn:E4;
      cbn [bind]; try discriminate.
    destruct (subscript track "album") as [album_obj|e|] eqn:E5;
      cbn [bind]; try discriminate.
    destruct (subscript album_obj "name") as [album|e|] eqn:E6;
      cbn [bind]; try discriminate.
    destruct (subscript album_obj "release_date") as [release_date|e|] eqn:E7;
      cbn [bind]; try discriminate.
    intros [= <-]. right.
    exists name, album, release_date, track, rest. split; [reflexivity|].
    exists album_obj. auto.
Qed.

End SpotifyMore.

(** X11. Whatever the two endpoints answer, a value [search_spotify]
    returns is either the empty dictionary or a record of exactly the keys
    [track], [album], [release_date] and [metadata], where [metadata] is a
    non-empty list and the three fields are those of its first item. *)
Theorem search_spotify_result_shape :
  forall (b64encode : string -> string) (str : value -> string)
    (net : network) (song artist client_id client_secret : string)
    (v : value),
    search_spotify b64encode str net song artist client_id client_secret
      = Returned v ->
    v = VDict [] \/ is_match v.
Proof.
  intros b64encode str net song artist client_id client_secret v.
  rewrite search_spotify_steps. unfold call, json_of.
  destruct (net 0%nat (token_request b64encode client_id client_secret))
    as [auth_response|]; cbn [bind]; [|discriminate].
  destruct (status_code auth_response =? 200); cbn [bind]; [|discriminate].
  destruct (json auth_response) as [body|]; cbn [bind]; [|discriminate].
  destruct (subscript body "access_token") as [access_token|e|];
    cbn [bind]; try discriminate.
  destruct (net 1%nat (search_request str song artist access_token))
    as [search_response|]; cbn [bind]; [|discriminate].
  apply read_search_shape.
Qed.

Lemma search_spotify_result_shape_witness :
  search_spotify Sample.b64encode Sample.str
    (Sample.catalogue 200 200 [Sample.yesterday])
    "Yesterday" "Beatles" "id" "secret"
  = Returned (VDict [("track", VStr "Yesterday"); ("album", VStr "Help!");
                     ("release_date", VStr "1965-08-06");
                     ("metadata", VList [Sample.yesterday])]) /\
  (VDict [("track", VStr "Yesterday"); ("album", VStr "Help!");
          ("release_date", VStr "1965-08-06");
          ("metadata", VList [Sample.yesterday])] = VDict [] \/
   is_match (VDict [("track", VStr "Yesterday"); ("album", VStr "Help!");
                    ("release_date", VStr "1965-08-06");
                    ("metadata", VList [Sample.yesterday])])).
Proof.
  split; [reflexivity|].
  apply (search_spotify_result_shape Sample.b64encode Sample.str
           (Sample.catalogue 200 200 [Sample.yesterday])
           "Yesterday" "Beatles" "id" "secret").
  reflexivity.
Defined.

(** X12. [search_spotify] raises [RuntimeError] exactly when the token
    endpoint answers with a status other than 200: no other failure (a
    transport error, a body that is not JSON, a missing key) is reported
    with that exception. *)
Theorem runtime_error_iff_token_refused :
  forall (b64encode : string -> string) (str : value -> string)
    (net : network) (song artist client_id client_secret : string),
    search_spotify b64encode str net song artist client_id client_secret
      = Raised RuntimeError <->
    exists auth_response,
      net 0%nat (token_request b64encode client_id client_secret)
        = Some auth_response /\
      status_code auth_response <> 200.
Proof.
  intros b64encode str net song artist client_id client_secret.
  rewrite search_spotify_steps. unfold call, json_of. split.
  - destruct (net 0%nat (token_request b64encode client_id client_secret))
      as [auth_response|]; cbn [bind]; [|discriminate].
    destruct (Z.eqb_spec (status_code auth_response) 200) as [_|Hne];
      cbn [bind]; [|intros _; now exists auth_response].
    destruct (json auth_response) as [body|]; cbn [bind]; [|discriminate].
    destruct (subscript body "access_token") as [access_token|e|] eqn:E;
      cbn [bind]; [|intros [= ->]; now apply subscript_not_runtime in E
                   |discriminate].
    destruct (net 1%nat (search_request str song artist access_token))
      as [search_response|]; cbn [bind]; [|discriminate].
    intros H. now apply read_search_not_runtime in H.
  - intros (auth_response & -> & Hne). cbn [bind].
    now destruct (Z.eqb_spec (status_code auth_response) 200).
Qed.

(** X13. [search_spotify] catches nothing: a transport error on the token
    request, or on the search request once the token is there, leaves the
    function as the [RequestException] raised (the scraping functions
    return an empty result instead). *)
Theorem search_spotify_transport_errors_propagate :
  forall (b64encode : string -> string) (str : value -> string)
    (net : network) (song artist client_id client_secret : string),
    (net 0%nat (token_request b64encode client_id client_secret) = None ->
     search_spotify b64encode str net song artist client_id client_secret
       = Raised RequestException) /\
    (forall access_token,
        authenticates b64encode net client_id client_secret access_token ->
        net 1%nat (search_request str song artist access_token) = None ->
        search_spotify b64encode str net song artist client_id client_secret
          = Raised RequestException).
Proof.
  intros b64encode str net song artist client_id client_secret. split.
  - intros H. rewrite search_spotify_steps. unfold call. now rewrite H.
  - intros access_token Hauth H.
    rewrite (search_after_token _ _ _ _ _ _ _ _ Hauth). unfold call.
    now rewrite H.
Qed.

Lemma search_spotify_transport_errors_propagate_witness :
  search_spotify Sample.b64encode Sample.str
    (Sample.answers None None) "Yesterday" "Beatles" "id" "secret"
    = Raised RequestException /\
  search_spotify Sample.b64encode Sample.str
    (Sample.answers (Some (Sample.token_response 200)) None)
    "Yesterday" "Beatles" "id" "secret" = Raised RequestException.
Proof.
  split.
  - apply (proj1 (search_spotify_transport_errors_propagate Sample.b64encode
                    Sample.str (Sample.answers None None)
                    "Yesterday" "Beatles" "id" "secret")).
    reflexivity.
  - apply (proj2 (search_spotify_transport_errors_propagate Sample.b64encode
                    Sample.str
                    (Sample.answers (Some (Sample.token_response 200)) None)
                    "Yesterday" "Beatles" "id" "secret") (VStr "BQD")).
    + exists (Sample.token_response 200). eexists.
      split; [reflexivity|]. split; [reflexivity|].
      split; reflexivity.
    + reflexivity.
Defined.

(** X14. Missing keys are no error: once authenticated, a 200 search answer
    whose JSON object has no [tracks], or whose [tracks] object has no
    [items], or whose [items] is empty or null, gives the empty dictionary. *)
Theorem missing_tracks_give_empty_match :
  forall (b64encode : string -> string) (str : value -> string)
    (net : network) (song artist client_id client_secret : string)
    (access_token : value) (search_response : Response)
    (d : list (string * value)),
    authenticates b64encode net client_id client_secret access_token ->
    net 1%nat (search_request str song artist access_token)
      = Some search_response ->
    status_code search_response = 200 ->
    json search_response = Some (VDict d) ->
    (dict_item "tracks" d = None \/
     exists t,
       dict_item "tracks" d = Some (VDict t) /\
       (dict_item "items" t = None \/
        exists items,
          dict_item "items" t = Some items /\ truthy items = false)) ->
    search_spotify b64encode str net song artist client_id client_secret
      = Returned (VDict []).
Proof.
  intros b64encode str net song artist client_id client_secret access_token
    search_response d Hauth Hnet Hst Hjson Hkeys.
  rewrite (search_after_token _ _ _ _ _ _ _ _ Hauth). unfold call.
  rewrite Hnet. cbn [bind]. unfold read_search, json_of.
  rewrite Hst, Hjson. cbn [Z.eqb Pos.eqb bind dict_get].
  destruct Hkeys as [Hk | (t & Hk & Hi)]; rewrite Hk; cbn [bind dict_get];
    [reflexivity|].
  destruct Hi as [Hi | (items & Hi & Hfalse)]; rewrite Hi; cbn [bind];
    [reflexivity|].
  now rewrite Hfalse.
Qed.

Lemma missing_tracks_give_empty_match_witness :
  search_spotify Sample.b64encode Sample.str
    (Sample.answers (Some (Sample.token_response 200))
       (Some (Sample.json_response 200 (VDict [("tracks", VDict [])]))))
    "Yesterday" "Beatles" "id" "secret" = Returned (VDict []).
Proof.
  apply (missing_tracks_give_empty_match Sample.b64encode Sample.str
           (Sample.answers (Some (Sample.token_response 200))
              (Some (Sample.json_response 200 (VDict [("tracks", VDict [])]))))
           "Yesterday" "Beatles" "id" "secret" (VStr "BQD")
           (Sample.json_response 200 (VDict [("tracks", VDict [])]))
           [("tracks", VDict [])]).
  - exists (Sample.token_response 200). eexists.
    split; [reflexivity|]. split; [reflexivity|]. split; reflexivity.
  - reflexivity.
  - reflexivity.
  - reflexivity.
  - right. exists []. split; [reflexivity|]. now left.
Defined.

(** X15. A first item that lacks [name] or [album], or whose [album] object
    lacks [name] or [release_date], is not taken for an empty match:
    [search_spotify] raises [KeyError]. *)
Theorem incomplete_track_raises_key_error :
  forall (b64encode : string -> string) (str : value -> string)
    (net : network) (song artist client_id client_secret : string)
    (access_token : value) (rest : list value) (d : list (string * value)),
    authenticates b64encode net client_id client_secret access_token ->
    finds str net song artist access_token (VDict d :: rest) ->
    (dict_item "name" d = None \/
     dict_item "album" d = None \/
     exists a,
       dict_item "album" d = Some (VDict a) /\
       (dict_item "name" a = None \/ dict_item "release_date" a = None)) ->
    search_spotify b64encode str net song artist client_id client_secret
      = Raised KeyError.
Proof.
  intros b64encode str net song artist client_id client_secret access_token
    rest d Hauth
    (search_response & data & tracks_obj & Hnet & Hst & Hjson & Ht & Hi)
    Hlack.
  rewrite (search_after_token _ _ _ _ _ _ _ _ Hauth). unfold call.
  rewrite Hnet. cbn [bind]. unfold read_search, json_of.
  rewrite Hst, Hjson. cbn [Z.eqb Pos.eqb bind]. rewrite Ht. cbn [bind].
  rewrite Hi. cbn [bind truthy subscript0 subscript].
  destruct (dict_item "name" d) as [name|]; cbn [bind]; [|reflexivity].
  destruct Hlack as [Hn | [-> | (a & -> & Ha)]];
    [discriminate|reflexivity|].
  cbn [bind subscript].
  destruct (dict_item "name" a) as [album|]; cbn [bind]; [|reflexivity].
  destruct Ha as [Ha | ->]; [discriminate|reflexivity].
Qed.

Lemma incomplete_track_raises_key_error_witness :
  search_spotify Sample.b64encode Sample.str
    (Sample.catalogue 200 200 [Sample.untitled])
    "Yesterday" "Beatles" "id" "secret" = Raised KeyError.
Proof.
  apply (incomplete_track_raises_key_error Sample.b64encode Sample.str
           (Sample.catalogue 200 200 [Sample.untitled])
           "Yesterday" "Beatles" "id" "secret" (VStr "BQD") []
           [("name", VStr "Yesterday")]).
  - exists (Sample.token_response 200). eexists.
    split; [reflexivity|]. split; [reflexivity|]. split; reflexivity.
  - exists (Sample.search_response 200 [Sample.untitled]). do 2 eexists.
    split; [reflexivity|]. split; [reflexivity|]. split; [reflexivity|].
    split; reflexivity.
  - right; left. reflexivity.
Defined.
